(** * SpeakHub voice-channel manager: shallow embedding of src/SpeakHub.py

    The cog [VoiceManager] keeps two Python dicts ([voice_channels]:
    channel id -> owner id, [cooldowns]: user id -> loop time) and an
    SQLite connection with three tables.  The Discord guild it talks to
    is modelled as the part of the platform state the code reads and
    writes: live channels with their permission overwrites and user
    limit, the set of guild members, and who sits in which voice channel.

    Identifiers (snowflakes) and times are [Z]; the loop time of
    [asyncio.get_event_loop().time()] and [datetime.now()] are given as
    explicit arguments in seconds.  SQL tables are lists of rows in
    insertion order; Python dicts are stdpp [gmap]s. *)

From stdpp Require Import base gmap list strings.
From Stdlib Require Import ZArith Ascii.

Open Scope Z_scope.

(** ** Configuration ([DEFAULT_CONFIG], [load_config]) *)

Record Config := {
  create_voice_channel_id : Z;
  voice_category_id : Z;
  cooldown_time : Z
}.

Definition DEFAULT_CONFIG : Config := {|
  create_voice_channel_id := 1350793212696072276;
  voice_category_id := 1350793002754375750;
  cooldown_time := 5
|}.

(** [self.invite_cooldown_duration = timedelta(hours=2)], in seconds. *)
Definition invite_cooldown_duration : Z := 2 * 3600.

(** ** Discord permission overwrites

    [discord.PermissionOverwrite] restricted to the four flags the code
    sets; [None] is "inherit".  [channel.set_permissions(target, kw...)]
    builds a fresh [PermissionOverwrite(kw...)] and replaces the target's
    overwrite with it. *)

Record Overwrite := {
  ow_connect : option bool;
  ow_manage_channels : option bool;
  ow_move_members : option bool;
  ow_mute_members : option bool
}.

Definition ow_empty : Overwrite := {|
  ow_connect := None; ow_manage_channels := None;
  ow_move_members := None; ow_mute_members := None |}.

(** [PermissionOverwrite(connect=c)] *)
Definition ow_connect_only (c : option bool) : Overwrite := {|
  ow_connect := c; ow_manage_channels := None;
  ow_move_members := None; ow_mute_members := None |}.

(** [PermissionOverwrite(connect=True, manage_channels=True,
    move_members=True, mute_members=True)]: the transfer's (and the
    default config's) owner overwrite. *)
Definition ow_owner : Overwrite := {|
  ow_connect := Some true; ow_manage_channels := Some true;
  ow_move_members := Some true; ow_mute_members := Some true |}.

(** A live voice channel: default-role overwrite, per-member overwrites,
    [user_limit]. *)
Record Channel := {
  ch_default : Overwrite;
  ch_members : gmap Z Overwrite;
  ch_user_limit : Z
}.

(** [channel.overwrites_for(member)] *)
Definition overwrites_for (ch : Channel) (uid : Z) : Overwrite :=
  default ow_empty (ch_members ch !! uid).

(** ** SQLite tables ([setup_database]) *)

(** [voice_channels(channel_id PRIMARY KEY, owner_id, interface_message_id)] *)
Record VcRow := {
  vc_channel_id : Z;
  vc_owner_id : Z;
  vc_interface_message_id : option Z
}.

(** [user_invites(id AUTOINCREMENT, inviter_id, invited_user_id,
    invited_at, channel_id, UNIQUE(inviter_id, invited_user_id, channel_id))] *)
Record InviteRow := {
  inv_id : Z;
  inv_inviter_id : Z;
  inv_invited_user_id : Z;
  inv_invited_at : Z;
  inv_channel_id : option Z
}.

Record Db := {
  db_voice_channels : list VcRow;
  db_blocked_users : list (Z * Z);   (* (channel_id, user_id), PRIMARY KEY both *)
  db_user_invites : list InviteRow;
  db_next_invite_id : Z
}.

(** ** The whole state: cog fields, database, guild *)

Record World := {
  voice_channels : gmap Z Z;    (* self.voice_channels *)
  cooldowns : gmap Z Z;         (* self.cooldowns *)
  db : Db;                      (* self.db_conn *)
  channels : gmap Z Channel;    (* guild.get_channel *)
  members : gset Z;             (* guild.get_member *)
  voice : gmap Z Z              (* member.voice.channel.id *)
}.

Definition set_voice_channels (r : gmap Z Z) (w : World) : World :=
  {| voice_channels := r; cooldowns := cooldowns w; db := db w;
     channels := channels w; members := members w; voice := voice w |}.
Definition set_cooldowns (c : gmap Z Z) (w : World) : World :=
  {| voice_channels := voice_channels w; cooldowns := c; db := db w;
     channels := channels w; members := members w; voice := voice w |}.
Definition set_db (d : Db) (w : World) : World :=
  {| voice_channels := voice_channels w; cooldowns := cooldowns w; db := d;
     channels := channels w; members := members w; voice := voice w |}.
Definition set_channels (cs : gmap Z Channel) (w : World) : World :=
  {| voice_channels := voice_channels w; cooldowns := cooldowns w; db := db w;
     channels := cs; members := members w; voice := voice w |}.
Definition set_voice (v : gmap Z Z) (w : World) : World :=
  {| voice_channels := voice_channels w; cooldowns := cooldowns w; db := db w;
     channels := channels w; members := members w; voice := v |}.

Definition set_vc_rows (rs : list VcRow) (d : Db) : Db :=
  {| db_voice_channels := rs; db_blocked_users := db_blocked_users d;
     db_user_invites := db_user_invites d; db_next_invite_id := db_next_invite_id d |}.
Definition set_blocked_rows (bs : list (Z * Z)) (d : Db) : Db :=
  {| db_voice_channels := db_voice_channels d; db_blocked_users := bs;
     db_user_invites := db_user_invites d; db_next_invite_id := db_next_invite_id d |}.

(** ** [VoiceManager.is_on_cooldown] *)

Definition is_on_cooldown (cfg : Config) (w : World) (user_id now : Z)
  : bool * World :=
  match cooldowns w !! user_id with
  | Some last =>
      if now - last <? cooldown_time cfg then (true, w)
      else (false, set_cooldowns (<[user_id := now]> (cooldowns w)) w)
  | None => (false, set_cooldowns (<[user_id := now]> (cooldowns w)) w)
  end.

(** ** [VoiceManager.create_voice_channel]

    The platform's answers are an explicit argument: whether
    [bot.get_channel(voice_category_id)] finds the category, the id of
    the channel [category.create_voice_channel] creates ([None] when it
    raises), and whether [member.move_to(new_channel)] succeeds.  One
    [try] wraps the whole body; an exception is logged and ends it. *)

Record CreateOutcome := {
  co_category_found : bool;
  co_new_channel : option Z;
  co_move_ok : bool
}.

(** The overwrites the new channel is created with:
    [{guild.default_role: PermissionOverwrite(connect=True),
      member: PermissionOverwrite(default_user_permissions)}]. *)
Definition new_channel (member : Z) : Channel := {|
  ch_default := ow_connect_only (Some true);
  ch_members := {[ member := ow_owner ]};
  ch_user_limit := 0
|}.

(** [INSERT INTO voice_channels (channel_id, owner_id) VALUES (?, ?)];
    [None] is the [IntegrityError] of the primary key. *)
Definition insert_vc_row (rs : list VcRow) (cid oid : Z) : option (list VcRow) :=
  if existsb (fun r => vc_channel_id r =? cid) rs then None
  else Some (rs ++ [{| vc_channel_id := cid; vc_owner_id := oid;
                       vc_interface_message_id := None |}]).

Definition create_voice_channel (o : CreateOutcome) (w : World) (member : Z)
  : World :=
  if negb (co_category_found o) then w else
  match co_new_channel o with
  | None => w
  | Some nid =>
      let w1 := set_channels (<[nid := new_channel member]> (channels w)) w in
      if negb (co_move_ok o) then w1 else
      let w2 := set_voice (<[member := nid]> (voice w1)) w1 in
      match insert_vc_row (db_voice_channels (db w2)) nid member with
      | None => w2
      | Some rs =>
          let w3 := set_db (set_vc_rows rs (db w2)) w2 in
          set_voice_channels (<[nid := member]> (voice_channels w3)) w3
      end
  end.

(** ** [VoiceManager.delete_voice_channel]

    Rows of both tables are deleted, the registry entry dropped, the
    interface message (presentation) deleted best effort, and the
    channel deleted on the platform, which disconnects its occupants. *)

Definition delete_rows_of (cid : Z) (d : Db) : Db :=
  set_blocked_rows (filter (fun p => negb (p.1 =? cid)) (db_blocked_users d))
    (set_vc_rows (filter (fun r => negb (vc_channel_id r =? cid)) (db_voice_channels d)) d).

Definition delete_voice_channel (w : World) (cid : Z) : World :=
  let w1 := set_db (delete_rows_of cid (db w)) w in
  let w2 := set_voice_channels (delete cid (voice_channels w1)) w1 in
  let w3 := set_channels (delete cid (channels w2)) w2 in
  set_voice (filter (fun kv => kv.2 <> cid) (voice w3)) w3.

(** ** [VoiceManager.on_voice_state_update]

    [after_sleep] is [member.voice.channel] observed after
    [asyncio.sleep(0.5)]. *)

Record VoiceEvent := {
  ev_member : Z;
  ev_bot : bool;
  ev_before : option Z;
  ev_after : option Z
}.

Definition on_voice_state_update (cfg : Config) (o : CreateOutcome)
  (w : World) (ev : VoiceEvent) (now : Z) (after_sleep : option Z) : World :=
  if ev_bot ev then w else
  if bool_decide (ev_after ev = Some (create_voice_channel_id cfg)) then
    let '(on_cd, w1) := is_on_cooldown cfg w (ev_member ev) now in
    if on_cd then w1 else create_voice_channel o w1 (ev_member ev)
  else
    match ev_before ev with
    | Some b =>
        match voice_channels w !! b with
        | Some owner =>
            if owner =? ev_member ev then
              if bool_decide (after_sleep = Some b) then w
              else delete_voice_channel w b
            else w
        | None => w
        end
    | None => w
    end.

(** ** [VoiceManager.load_voice_channels]

    The loop runs over the rows fetched before it starts; for a channel
    [bot.get_channel] does not find, both tables lose its rows, otherwise
    the registry maps it to the stored owner. *)

Definition load_step (w : World) (row : Z * Z) : World :=
  let '(cid, oid) := row in
  match channels w !! cid with
  | None => set_db (delete_rows_of cid (db w)) w
  | Some _ => set_voice_channels (<[cid := oid]> (voice_channels w)) w
  end.

Definition load_voice_channels (w : World) : World :=
  fold_left load_step
    (map (fun r => (vc_channel_id r, vc_owner_id r)) (db_voice_channels (db w))) w.

(** ** Replies sent to the acting user *)

(** The four rejections of [VoiceChannelButton.callback], in its order. *)
Inductive Rejection :=
  | NotInVoice      (* "You must be in a voice channel ..." *)
  | NotManaged      (* "... not managed by the Voice Manager." *)
  | NotOwner        (* "You are not the owner of this voice channel." *)
  | ChannelGone.    (* "This voice channel does not exist anymore." *)

(** The buttons of [VoiceChannelView], one per configured function. *)
Inductive ButtonKind := Limit | Kick | Lock | Invite | Transfer | Name | Block.

Inductive Reply :=
  | NoResponse                         (* the interaction is never answered *)
  | Rejected (e : Rejection)
  | ShowModal (k : ButtonKind) (cid : Z)
  | ShowMemberSelect (k : ButtonKind) (cid : Z) (choices : list Z)
  | ShowBlockedUsers (cid : Z) (blocked : list Z)
  | NoOtherMembers
  | Locked
  | Unlocked
  | InvalidNumber                      (* "Please enter a valid number." *)
  | ChannelNoLongerExists
  | LimitRemoved
  | LimitSet (n : Z)
  | UserNotFound
  | CannotInviteSelf
  | InviteOnCooldown
  | UserIsBlocked
  | UnexpectedError
  | InvitationSent.

(** ** Platform helpers *)

Definition set_member_overwrite (uid : Z) (ow : Overwrite) (ch : Channel) : Channel :=
  {| ch_default := ch_default ch; ch_members := <[uid := ow]> (ch_members ch);
     ch_user_limit := ch_user_limit ch |}.

Definition set_default_overwrite (ow : Overwrite) (ch : Channel) : Channel :=
  {| ch_default := ow; ch_members := ch_members ch; ch_user_limit := ch_user_limit ch |}.

Definition set_user_limit (n : Z) (ch : Channel) : Channel :=
  {| ch_default := ch_default ch; ch_members := ch_members ch; ch_user_limit := n |}.

(** [channel.set_permissions(...)] / [channel.edit(...)] on a channel
    object the code has just fetched. *)
Definition update_channel (cid : Z) (f : Channel -> Channel) (w : World) : World :=
  set_channels (alter f cid (channels w)) w.

(** [channel.members]: the users whose voice state is in [cid]. *)
Definition channel_members (w : World) (cid : Z) : list Z :=
  map fst (map_to_list (filter (fun kv => kv.2 = cid) (voice w))).

(** ** [VoiceManager.is_channel_owner] and [VoiceChannelButton.callback] *)

Definition is_channel_owner (w : World) (user_id channel_id : Z) : bool :=
  match voice_channels w !! channel_id with
  | Some owner => owner =? user_id
  | None => false
  end.

(** The checks of the base button callback, in the order the source runs
    them; [inr cid] is the channel id it returns. *)
Definition button_validate (w : World) (user : Z) : Rejection + Z :=
  match voice w !! user with
  | None => inl NotInVoice
  | Some cid =>
      match voice_channels w !! cid with
      | None => inl NotManaged
      | Some _ =>
          if negb (is_channel_owner w user cid) then inl NotOwner
          else match channels w !! cid with
               | None => inl ChannelGone
               | Some _ => inr cid
               end
      end
  end.

(** [VoiceManager.get_blocked_users] *)
Definition get_blocked_users (d : Db) (cid : Z) : list Z :=
  map snd (filter (fun p => p.1 =? cid) (db_blocked_users d)).

(** [LockChannelButton.callback] after validation. *)
Definition lock_toggle (w : World) (cid : Z) (ch : Channel) : World * Reply :=
  let new_state := match ow_connect (ch_default ch) with
                   | Some false => None
                   | _ => Some false
                   end in
  (update_channel cid (set_default_overwrite (ow_connect_only new_state)) w,
   if bool_decide (new_state = Some false) then Locked else Unlocked).

(** The callback of each button: [super().callback(interaction)], then
    [if not channel_id: return], then the button's own step. *)
Definition button_callback (k : ButtonKind) (w : World) (user : Z) : World * Reply :=
  match button_validate w user with
  | inl e => (w, Rejected e)
  | inr cid =>
      if cid =? 0 then (w, NoResponse) else
      match k with
      | Limit | Invite | Name => (w, ShowModal k cid)
      | Kick | Transfer =>
          let others := filter (fun m => m <> user) (channel_members w cid) in
          match others with
          | [] => (w, NoOtherMembers)
          | _ => (w, ShowMemberSelect k cid (firstn 25 others))   (* members[:25] *)
          end
      | Lock =>
          match channels w !! cid with
          | Some ch => lock_toggle w cid ch
          | None => (w, NoResponse)
          end
      | Block => (w, ShowBlockedUsers cid (get_blocked_users (db w) cid))
      end
  end.

(** ** [MemberSelectView.select_callback], action ["transfer"]

    [actor] is [interaction.user], [selected] the chosen member id. *)

Definition update_owner_row (cid new_owner : Z) (r : VcRow) : VcRow :=
  if vc_channel_id r =? cid then
    {| vc_channel_id := vc_channel_id r; vc_owner_id := new_owner;
       vc_interface_message_id := vc_interface_message_id r |}
  else r.

Definition transfer_select (w : World) (actor cid selected : Z) : World * Reply :=
  match channels w !! cid with
  | None => (w, NoResponse)
  | Some _ =>
      if bool_decide (selected ∉ members w) then (w, NoResponse) else
      let w1 := update_channel cid (set_member_overwrite selected ow_owner) w in
      let w2 := update_channel cid (set_member_overwrite actor (ow_connect_only (Some true))) w1 in
      (* UPDATE voice_channels SET owner_id = ? WHERE channel_id = ? *)
      let w3 := set_db (set_vc_rows (map (update_owner_row cid selected)
                                         (db_voice_channels (db w2))) (db w2)) w2 in
      (set_voice_channels (<[cid := selected]> (voice_channels w3)) w3, NoResponse)
  end.

(** ** [VoiceManager.block_user] and [VoiceManager.unblock_user] *)

Definition block_user (w : World) (cid uid : Z) : World :=
  (* INSERT OR IGNORE INTO blocked_users *)
  let bs := db_blocked_users (db w) in
  let bs' := if existsb (fun p => bool_decide (p = (cid, uid))) bs then bs
             else bs ++ [(cid, uid)] in
  let w1 := set_db (set_blocked_rows bs' (db w)) w in
  match channels w1 !! cid with
  | Some _ =>
      if bool_decide (uid ∈ members w1) then
        let w2 := update_channel cid (set_member_overwrite uid (ow_connect_only (Some false))) w1 in
        if bool_decide (voice w2 !! uid = Some cid)
        then set_voice (delete uid (voice w2)) w2    (* member.move_to(None) *)
        else w2
      else w1
  | None => w1
  end.

Definition unblock_user (w : World) (cid uid : Z) : World :=
  let bs' := filter (fun p => negb (bool_decide (p = (cid, uid)))) (db_blocked_users (db w)) in
  let w1 := set_db (set_blocked_rows bs' (db w)) w in
  match channels w1 !! cid with
  | Some _ =>
      if bool_decide (uid ∈ members w1)
      then update_channel cid (set_member_overwrite uid (ow_connect_only (Some true))) w1
      else w1
  | None => w1
  end.

(** ** Invite rate limit: [check_invite_cooldown], [save_invite_timestamp]

    [SELECT invited_at FROM user_invites WHERE inviter_id = ? AND
    invited_user_id = ? [AND channel_id = ?] ORDER BY invited_at DESC
    LIMIT 1]: the latest matching timestamp.  The ISO strings of
    [datetime.now().isoformat()] sort as the times they denote, so the
    stored text is modelled by the time itself. *)

Definition invite_matches (inviter invited : Z) (channel : option Z) (r : InviteRow) : bool :=
  (inv_inviter_id r =? inviter) && (inv_invited_user_id r =? invited) &&
  match channel with
  | Some c => bool_decide (inv_channel_id r = Some c)
  | None => true
  end.

Definition last_invite_time (d : Db) (inviter invited : Z) (channel : option Z) : option Z :=
  fold_left (fun acc r =>
               match acc with
               | Some t => Some (Z.max t (inv_invited_at r))
               | None => Some (inv_invited_at r)
               end)
            (filter (fun r => invite_matches inviter invited channel r) (db_user_invites d))
            None.

(** The query either answers or raises (a driver error, or
    [datetime.fromisoformat] on a bad stored text); both raise inside the
    same [try], whose handler returns [False]. *)
Inductive QueryResult (A : Type) := QOk (a : A) | QRaised.
Arguments QOk {A} a.
Arguments QRaised {A}.

Definition check_invite_cooldown (q : QueryResult (option Z)) (now : Z) : bool :=
  match q with
  | QRaised => false
  | QOk None => false
  | QOk (Some last) => now - last <? invite_cooldown_duration
  end.

(** SQLite's UNIQUE treats NULLs as distinct: two rows clash only when
    both channel ids are present and equal. *)
Definition invite_clash (inviter invited : Z) (channel : option Z) (r : InviteRow) : bool :=
  (inv_inviter_id r =? inviter) && (inv_invited_user_id r =? invited) &&
  match channel, inv_channel_id r with
  | Some c, Some c' => c =? c'
  | _, _ => false
  end.

(** The [INSERT]; on the [IntegrityError] of the UNIQUE constraint the
    handler logs and the table is unchanged. *)
Definition save_invite_timestamp (d : Db) (inviter invited now : Z) (channel : option Z) : Db :=
  if existsb (invite_clash inviter invited channel) (db_user_invites d) then d
  else {| db_voice_channels := db_voice_channels d;
          db_blocked_users := db_blocked_users d;
          db_user_invites := db_user_invites d ++
            [{| inv_id := db_next_invite_id d; inv_inviter_id := inviter;
                inv_invited_user_id := invited; inv_invited_at := now;
                inv_channel_id := channel |}];
          db_next_invite_id := db_next_invite_id d + 1 |}.

(** Which of the two reads of [InviteUserModal.on_submit] raise. *)
Record InviteFaults := {
  fault_cooldown_query : bool;   (* inside check_invite_cooldown *)
  fault_blocked_query : bool     (* get_blocked_users *)
}.

Definition no_faults : InviteFaults :=
  {| fault_cooldown_query := false; fault_blocked_query := false |}.

(** [InviteUserModal.on_submit]; [user] is the member the input text
    resolved to ([None]: not found).  The DM to the invited user is
    presentation and left out. *)
Definition invite_on_submit (flt : InviteFaults) (w : World) (cid inviter : Z)
  (user : option Z) (now : Z) : World * Reply :=
  match user with
  | None => (w, UserNotFound)
  | Some u =>
      if u =? inviter then (w, CannotInviteSelf) else
      let q := if fault_cooldown_query flt then QRaised
               else QOk (last_invite_time (db w) inviter u (Some cid)) in
      if check_invite_cooldown q now then (w, InviteOnCooldown) else
      match channels w !! cid with
      | None => (w, ChannelNoLongerExists)
      | Some _ =>
          if fault_blocked_query flt then (w, UnexpectedError) else
          if bool_decide (u ∈ get_blocked_users (db w) cid) then (w, UserIsBlocked) else
          let w1 := update_channel cid (set_member_overwrite u (ow_connect_only (Some true))) w in
          (set_db (save_invite_timestamp (db w1) inviter u now (Some cid)) w1, InvitationSent)
      end
  end.

(** ** [LimitMembersModal.on_submit]

    Python's [int(text)] on an ASCII string: surrounding whitespace
    stripped, an optional sign, decimal digits with single underscores
    between them; anything else raises [ValueError]. *)

Definition py_isspace (c : ascii) : bool :=
  let n := nat_of_ascii c in
  (Nat.leb 9 n && Nat.leb n 13) || (Nat.leb 28 n && Nat.leb n 32).

Fixpoint lstrip (l : list ascii) : list ascii :=
  match l with
  | c :: t => if py_isspace c then lstrip t else l
  | [] => []
  end.

Definition py_strip (l : list ascii) : list ascii := rev (lstrip (rev (lstrip l))).

Definition digit_value (c : ascii) : option Z :=
  let n := nat_of_ascii c in
  if Nat.leb 48 n && Nat.leb n 57 then Some (Z.of_nat n - 48) else None.

(** [after_digit]: the previous character was a digit, so an underscore
    may follow. *)
Fixpoint parse_digits (acc : Z) (after_digit : bool) (l : list ascii) : option Z :=
  match l with
  | [] => if after_digit then Some acc else None
  | c :: t =>
      match digit_value c with
      | Some d => parse_digits (acc * 10 + d) true t
      | None =>
          if after_digit && bool_decide (c = "_"%char) then parse_digits acc false t
          else None
      end
  end.

Definition python_int (s : string) : option Z :=
  match py_strip (String.list_ascii_of_string s) with
  | "-"%char :: t => option_map Z.opp (parse_digits 0 false t)
  | "+"%char :: t => parse_digits 0 false t
  | l => parse_digits 0 false l
  end.

(** [ui.TextInput(min_length=1, max_length=2)]: the texts the modal can
    submit. *)
Definition limit_input_ok (s : string) : Prop := (1 <= String.length s <= 2)%nat.

Definition limit_on_submit (w : World) (cid : Z) (s : string) : World * Reply :=
  match python_int s with
  | None => (w, InvalidNumber)
  | Some limit_value =>
      if (limit_value <? 0) || (99 <? limit_value) then
        (* the embed "Please enter a number between 0 and 99." is built,
           then [return] *)
        (w, NoResponse)
      else
        match channels w !! cid with
        | None => (w, ChannelNoLongerExists)
        | Some _ =>
            let user_limit := if limit_value =? 0 then 0 else limit_value in
            (update_channel cid (set_user_limit user_limit) w,
             if user_limit =? 0 then LimitRemoved else LimitSet user_limit)
        end
  end.

(** ** [MemberSelectView.select_callback], action ["kick"]

    [selected] is [int(self.member_select.values[0])].  Of its embeds only
    "... is not in your channel." is sent; the others are built and
    dropped, so the interaction is left unanswered. *)
Inductive KickReply := KickNoResponse | KickNotInYourChannel.

Definition kick_select (w : World) (cid selected : Z) : World * KickReply :=
  match channels w !! cid with
  | None => (w, KickNoResponse)
  | Some _ =>
      if bool_decide (selected ∉ members w) then (w, KickNoResponse) else
      if bool_decide (voice w !! selected = Some cid)
      then (set_voice (delete selected (voice w)) w, KickNoResponse)   (* member.move_to(None) *)
      else (w, KickNotInYourChannel)
  end.

(** ** The user text of [InviteUserModal] and [BlockUserModal]

    Both strip the text, unwrap a mention [<@...>] or [<@!...>], try
    [int(...)] and [guild.get_member], and on [ValueError] take the first
    member of [guild.members] whose name or nickname contains the text,
    case-insensitively.  Texts are ASCII, where [str.lower] maps A-Z to
    a-z. *)
Record GuildMember := {
  gm_id : Z;
  gm_name : string;
  gm_nick : option string
}.

Definition ascii_lower (c : ascii) : ascii :=
  let n := nat_of_ascii c in
  if Nat.leb 65 n && Nat.leb n 90 then ascii_of_nat (n + 32) else c.

Definition py_lower (l : list ascii) : list ascii := map ascii_lower l.

Fixpoint list_prefix (p h : list ascii) : bool :=
  match p, h with
  | [], _ => true
  | c :: p', d :: h' => Ascii.eqb c d && list_prefix p' h'
  | _ :: _, [] => false
  end.

(** [needle in hay] *)
Fixpoint py_contains (needle hay : list ascii) : bool :=
  list_prefix needle hay ||
  match hay with
  | [] => false
  | _ :: t => py_contains needle t
  end.

(** [if user_input.startswith("<@") and user_input.endswith(">"):
      user_input = user_input[2:-1]
      if user_input.startswith("!"): user_input = user_input[1:]] *)
Definition strip_mention (l : list ascii) : list ascii :=
  match l with
  | "<"%char :: "@"%char :: _ =>
      match last l with
      | Some ">"%char =>
          match firstn (length l - 3) (skipn 2 l) with
          | "!"%char :: t => t
          | t => t
          end
      | _ => l
      end
  | _ => l
  end.

(** [guild.get_member(user_id)] *)
Definition get_member (ms : list GuildMember) (uid : Z) : option GuildMember :=
  List.find (fun m => gm_id m =? uid) ms.

(** [user_input.lower() in member.name.lower() or
     (member.nick and user_input.lower() in member.nick.lower())] *)
Definition name_matches (needle : list ascii) (m : GuildMember) : bool :=
  py_contains (py_lower needle) (py_lower (String.list_ascii_of_string (gm_name m))) ||
  match gm_nick m with
  | Some n => negb (String.eqb n EmptyString) &&
              py_contains (py_lower needle) (py_lower (String.list_ascii_of_string n))
  | None => false
  end.

Definition resolve_user (ms : list GuildMember) (text : string) : option GuildMember :=
  let s := strip_mention (py_strip (String.list_ascii_of_string text)) in
  match python_int (String.string_of_list_ascii s) with
  | Some uid => get_member ms uid
  | None => List.find (name_matches s) ms
  end.

(** [BlockUserModal.on_submit]: neither ownership nor the channel is
    checked again; the success embed is built and not sent. *)
Inductive BlockReply := BlockUserNotFound | BlockCannotBlockSelf | BlockNoResponse.

Definition block_on_submit (w : World) (ms : list GuildMember) (cid actor : Z) (text : string)
  : World * BlockReply :=
  match resolve_user ms text with
  | None => (w, BlockUserNotFound)
  | Some m =>
      if gm_id m =? actor then (w, BlockCannotBlockSelf)
      else (block_user w cid (gm_id m), BlockNoResponse)
  end.

(** ** Startup: the cog's [on_ready] listener and [setup]'s [@bot.event on_ready]

    [bs_views_added] is [bot.voice_views_added]; [bs_views] the channel
    ids given a persistent [VoiceChannelView] by [bot.add_view] (the dict
    is iterated in insertion order, the statements only use membership). *)
Record BotState := {
  bs_world : World;
  bs_views_added : bool;
  bs_views : list Z
}.

Definition cog_on_ready (b : BotState) : BotState :=
  {| bs_world := load_voice_channels (bs_world b);
     bs_views_added := bs_views_added b; bs_views := bs_views b |}.

Definition setup_on_ready (b : BotState) : BotState :=
  if bs_views_added b then b else
  let w := load_voice_channels (bs_world b) in
  {| bs_world := w; bs_views_added := true;
     bs_views := bs_views b ++ map fst (map_to_list (voice_channels w)) |}.

(** ** Derived observations used in the statements *)

(** [channel.overwrites_for(member).connect] on channel [cid], if live. *)
Definition connect_right (w : World) (cid uid : Z) : option (option bool) :=
  match channels w !! cid with
  | Some ch => Some (ow_connect (overwrites_for ch uid))
  | None => None
  end.

(** The owner column of the [voice_channels] rows for [cid]. *)
Definition stored_owners (w : World) (cid : Z) : list Z :=
  map vc_owner_id (filter (fun r => vc_channel_id r =? cid) (db_voice_channels (db w))).

(** What a destroy would remove for [cid]: the platform channel, its
    [voice_channels] and [blocked_users] rows, and its registry entry. *)
Definition resource_view (w : World) (cid : Z)
  : option Channel * list VcRow * list (Z * Z) * option Z :=
  (channels w !! cid,
   filter (fun r => vc_channel_id r =? cid) (db_voice_channels (db w)),
   filter (fun p => p.1 =? cid) (db_blocked_users (db w)),
   voice_channels w !! cid).

(** The registry part and the table part of one [load_step]. *)
Definition load_reg_step (cs : gmap Z Channel) (m : gmap Z Z) (row : Z * Z) : gmap Z Z :=
  match cs !! row.1 with
  | Some _ => <[row.1 := row.2]> m
  | None => m
  end.

Definition load_db_step (cs : gmap Z Channel) (d : Db) (row : Z * Z) : Db :=
  match cs !! row.1 with
  | Some _ => d
  | None => delete_rows_of row.1 d
  end.

(** [c] is the id of a fetched row whose channel [cs] lacks. *)
Definition gone_b (cs : gmap Z Channel) (l : list (Z * Z)) (c : Z) : bool :=
  existsb (fun p => bool_decide (cs !! p.1 = None) && (p.1 =? c)) l.

(** The [(channel_id, owner_id)] pairs [SELECT channel_id, owner_id FROM
    voice_channels] returns. *)
Definition vc_pairs (d : Db) : list (Z * Z) :=
  map (fun r => (vc_channel_id r, vc_owner_id r)) (db_voice_channels d).

(** The ASCII digit for [d] (0 <= d <= 9), the number a list of decimal
    digits denotes, and [str(n)] for 0 <= n <= 99. *)
Definition digit_char (d : Z) : ascii := ascii_of_nat (48 + Z.to_nat d).

Definition digits_value (ds : list Z) : Z := fold_left (fun a d => a * 10 + d) ds 0.

Definition decimal_text (n : Z) : string :=
  String.string_of_list_ascii (map digit_char (if n <? 10 then [n] else [n / 10; n mod 10])).

(** ** Sample states *)

Definition sample_db : Db := {|
  db_voice_channels := [{| vc_channel_id := 10; vc_owner_id := 1;
                           vc_interface_message_id := None |}];
  db_blocked_users := [];
  db_user_invites := [];
  db_next_invite_id := 1 |}.

(** User 1 owns channel 10 and sits in it with user 2. *)
Definition w_sample : World := {|
  voice_channels := {[10 := 1]};
  cooldowns := ∅;
  db := sample_db;
  channels := {[10 := new_channel 1]};
  members := {[1; 2]};
  voice := {[1 := 10; 2 := 10]} |}.

(** User 1 owns channel 10 and sits in it with users 2 and 3. *)
Definition w_three : World := {|
  voice_channels := {[10 := 1]};
  cooldowns := ∅;
  db := sample_db;
  channels := {[10 := new_channel 1]};
  members := {[1; 2; 3]};
  voice := {[1 := 10; 2 := 10; 3 := 10]} |}.

(** Channel 10 was deleted on the platform while the registry and the
    table still hold it. *)
Definition w_stale : World := set_channels ∅ w_sample.

(** User 1 was admitted at loop time 0. *)
Definition w_cooled : World := set_cooldowns {[1 := 0]} w_sample.

(** No channel yet; user 1 is in the spawner. *)
Definition w_spawn : World := {|
  voice_channels := ∅;
  cooldowns := ∅;
  db := set_vc_rows [] sample_db;
  channels := ∅;
  members := {[1]};
  voice := {[1 := create_voice_channel_id DEFAULT_CONFIG]} |}.

(** The platform creates channel 20 and then fails to move the user. *)
Definition move_fails : CreateOutcome :=
  {| co_category_found := true; co_new_channel := Some 20; co_move_ok := false |}.

(** User 1 invited user 2 to channel 10 at time 1000. *)
Definition w_invited : World :=
  set_db (save_invite_timestamp sample_db 1 2 1000 (Some 10)) w_sample.

(** * Properties *)

(** ** Cooldown tracker *)

(** C4 (counterexample): an attempt whose elapsed time equals the
    cooldown does not exceed it, yet [is_on_cooldown] admits it and
    records the new time. *)
Lemma is_on_cooldown_boundary_admits :
  ~ (forall (w : World) (u last now : Z),
       cooldowns w !! u = Some last ->
       now - last <= cooldown_time DEFAULT_CONFIG ->
       is_on_cooldown DEFAULT_CONFIG w u now = (true, w)).
Proof.
  intros H.
  specialize (H w_cooled 1 0 5 eq_refl ltac:(simpl; lia)).
  vm_compute in H. discriminate H.
Qed.

(** C4 (amended): with no prior attempt, or at least the cooldown elapsed
    since the stored time, the attempt is admitted and the time updated;
    with less elapsed it is denied and nothing changes.  Hence of two
    attempts less than one cooldown apart at most one is admitted, and
    any attempt a full cooldown after the stored time is admitted. *)
Theorem is_on_cooldown_admission (cfg : Config) (w : World) (u now : Z) :
  ((cooldowns w !! u = None \/
    exists last, cooldowns w !! u = Some last /\ cooldown_time cfg <= now - last) ->
   is_on_cooldown cfg w u now = (false, set_cooldowns (<[u := now]> (cooldowns w)) w)) /\
  (forall last, cooldowns w !! u = Some last -> now - last < cooldown_time cfg ->
   is_on_cooldown cfg w u now = (true, w)) /\
  (forall t2, t2 - now < cooldown_time cfg ->
   fst (is_on_cooldown cfg w u now) = true \/
   fst (is_on_cooldown cfg (snd (is_on_cooldown cfg w u now)) u t2) = true) /\
  (forall last t, cooldowns w !! u = Some last -> last + cooldown_time cfg <= t ->
   fst (is_on_cooldown cfg w u t) = false).
Proof.
  unfold is_on_cooldown. split; [|split; [|split]].
  - intros [Hn | (last & Hl & Hle)].
    + rewrite Hn. reflexivity.
    + rewrite Hl. destruct (Z.ltb_spec (now - last) (cooldown_time cfg)); [lia | reflexivity].
  - intros last Hl Hlt. rewrite Hl.
    destruct (Z.ltb_spec (now - last) (cooldown_time cfg)); [reflexivity | lia].
  - intros t2 Ht2.
    destruct (cooldowns w !! u) as [last|] eqn:Hl.
    + destruct (Z.ltb_spec (now - last) (cooldown_time cfg)); [left; reflexivity|].
      right. simpl. rewrite lookup_insert_eq.
      destruct (Z.ltb_spec (t2 - now) (cooldown_time cfg)); [reflexivity | lia].
    + right. simpl. rewrite lookup_insert_eq.
      destruct (Z.ltb_spec (t2 - now) (cooldown_time cfg)); [reflexivity | lia].
  - intros last t Hl Ht. rewrite Hl.
    destruct (Z.ltb_spec (t - last) (cooldown_time cfg)); [lia | reflexivity].
Qed.

(** Instance of C4 at user 1, stored time 0, default cooldown 5: a second
    attempt at 3 is denied, one at 5 is admitted. *)
Lemma is_on_cooldown_admission_witness :
  is_on_cooldown DEFAULT_CONFIG w_cooled 1 3 = (true, w_cooled) /\
  fst (is_on_cooldown DEFAULT_CONFIG w_cooled 1 5) = false.
Proof.
  split.
  - apply (proj1 (proj2 (is_on_cooldown_admission DEFAULT_CONFIG w_cooled 1 3)) 0);
      [reflexivity | simpl; lia].
  - apply (proj2 (proj2 (proj2 (is_on_cooldown_admission DEFAULT_CONFIG w_cooled 1 0))) 0 5);
      [reflexivity | simpl; lia].
Defined.

(** ** Resource creation *)

(** C2 (counterexample): the platform creates channel 20, moving user 1
    into it fails; the channel stays live but has no row and no registry
    entry. *)
Lemma create_move_failure_unregistered :
  let w' := create_voice_channel move_fails w_spawn 1 in
  channels w' !! 20 = Some (new_channel 1) /\
  voice_channels w' !! 20 = None /\
  stored_owners w' 20 = [].
Proof. vm_compute. repeat split. Qed.

(** C2 (amended): when the channel is created but [member.move_to]
    raises, the [try] ends: the new channel stays on the platform, no
    row is inserted and the registry is untouched. *)
Theorem create_voice_channel_move_failure (o : CreateOutcome) (w : World) (member nid : Z) :
  co_category_found o = true -> co_new_channel o = Some nid -> co_move_ok o = false ->
  create_voice_channel o w member = set_channels (<[nid := new_channel member]> (channels w)) w /\
  channels (create_voice_channel o w member) !! nid = Some (new_channel member) /\
  voice_channels (create_voice_channel o w member) = voice_channels w /\
  db (create_voice_channel o w member) = db w.
Proof.
  intros Hc Hn Hm.
  assert (E : create_voice_channel o w member =
              set_channels (<[nid := new_channel member]> (channels w)) w).
  { unfold create_voice_channel. rewrite Hc, Hn, Hm. reflexivity. }
  rewrite E. simpl. split; [reflexivity|]. split; [|split; reflexivity].
  apply lookup_insert_eq.
Qed.

Lemma create_voice_channel_move_failure_witness :
  create_voice_channel move_fails w_spawn 1 =
    set_channels (<[20 := new_channel 1]> (channels w_spawn)) w_spawn.
Proof.
  apply (create_voice_channel_move_failure move_fails w_spawn 1 20);
    reflexivity.
Defined.

(** ** Invites *)

(** C3 (evaluation at the failing input): user 1 invites user 2 to
    channel 10 at time 1000; again at 1000 + 1h is refused; at
    1000 + 3h the invite goes through, but the [INSERT] of its record hits
    UNIQUE(inviter_id, invited_user_id, channel_id), the error is logged,
    and the table keeps only the row of time 1000, so an invite at
    1000 + 4h is also let through. *)
Theorem invite_second_record_rejected :
  let '(w1, r1) := invite_on_submit no_faults w_sample 10 1 (Some 2) 1000 in
  let r2 := snd (invite_on_submit no_faults w1 10 1 (Some 2) (1000 + 3600)) in
  let '(w3, r3) := invite_on_submit no_faults w1 10 1 (Some 2) (1000 + 3 * 3600) in
  let r4 := snd (invite_on_submit no_faults w3 10 1 (Some 2) (1000 + 4 * 3600)) in
  r1 = InvitationSent /\
  map inv_invited_at (db_user_invites (db w1)) = [1000] /\
  r2 = InviteOnCooldown /\
  r3 = InvitationSent /\
  db_user_invites (db w3) = db_user_invites (db w1) /\
  r4 = InvitationSent.
Proof. vm_compute. repeat split. Qed.

(** C10: a raising cooldown query counts as "not on cooldown"; an invite
    that a working store refuses as within the 2-hour window is granted
    when that query raises. *)
Theorem invite_cooldown_fails_open (w : World) (cid inviter u last now : Z) (ch : Channel) :
  check_invite_cooldown QRaised now = false /\
  (last_invite_time (db w) inviter u (Some cid) = Some last ->
   now - last < invite_cooldown_duration ->
   u <> inviter -> channels w !! cid = Some ch ->
   u ∉ get_blocked_users (db w) cid ->
   snd (invite_on_submit no_faults w cid inviter (Some u) now) = InviteOnCooldown /\
   snd (invite_on_submit {| fault_cooldown_query := true; fault_blocked_query := false |}
          w cid inviter (Some u) now) = InvitationSent /\
   connect_right (fst (invite_on_submit {| fault_cooldown_query := true;
                                           fault_blocked_query := false |}
                         w cid inviter (Some u) now)) cid u = Some (Some true)).
Proof.
  split; [reflexivity|].
  intros Hlast Hlt Hne Hch Hnb.
  unfold invite_on_submit; simpl.
  assert (Hb : (u =? inviter) = false) by (apply Z.eqb_neq; exact Hne).
  rewrite Hb, Hlast, Hch. simpl.
  rewrite (proj2 (Z.ltb_lt _ _) Hlt).
  rewrite bool_decide_eq_false_2 by exact Hnb.
  split; [reflexivity|]. split; [reflexivity|].
  unfold connect_right, update_channel; simpl.
  rewrite lookup_alter_eq, Hch. simpl.
  unfold overwrites_for; simpl. rewrite lookup_insert_eq. reflexivity.
Qed.

Lemma invite_cooldown_fails_open_witness :
  snd (invite_on_submit {| fault_cooldown_query := true; fault_blocked_query := false |}
         w_invited 10 1 (Some 2) 2000) = InvitationSent.
Proof.
  apply (proj2 (invite_cooldown_fails_open w_invited 10 1 2 1000 2000 (new_channel 1)));
    [reflexivity | vm_compute; reflexivity | lia | reflexivity | vm_compute; set_solver].
Defined.

(** ** SetLimit *)

(** C9 (evaluation at the failing input): the two-character text ["-5"]
    parses as -5, is out of range, and the handler returns after building
    its error embed without sending it: the actor gets no reply. *)
Theorem limit_negative_unanswered (w : World) (cid : Z) :
  limit_input_ok "-5" /\ python_int "-5" = Some (-5) /\
  limit_on_submit w cid "-5" = (w, NoResponse).
Proof. split; [unfold limit_input_ok; simpl; lia | split; reflexivity]. Qed.

(** ** Owner-initiated mutations: the checks of the base button *)



(** ** Ownership transfer *)

Lemma stored_owners_transfer (rs : list VcRow) (cid b : Z) :
  map vc_owner_id (filter (fun r => vc_channel_id r =? cid) (map (update_owner_row cid b) rs)) =
  map (fun _ => b) (map vc_owner_id (filter (fun r => vc_channel_id r =? cid) rs)).
Proof.
  induction rs as [|r rs IH]; [reflexivity|].
  simpl. rewrite !filter_cons.
  assert (Hid : vc_channel_id (update_owner_row cid b r) = vc_channel_id r)
    by (unfold update_owner_row; destruct (_ =? _); reflexivity).
  repeat case_decide; rewrite ?Hid in *; simpl; try contradiction.
  - rewrite IH. f_equal. unfold update_owner_row.
    destruct (vc_channel_id r =? cid); [reflexivity | contradiction].
  - exact IH.
Qed.


(** C1 (counterexample): in [w_three], owner 1 presses Transfer and gets
    a select offering users 3 and 2; choosing 2 makes 2 the owner in the
    registry and the row.  The select stays live (60 s timeout, never
    stopped), and user 1 choosing 3 in it afterwards is not rejected: 3
    becomes the owner, with no reply. *)
Lemma transfer_then_stale_select_retransfers :
  snd (button_callback Transfer w_three 1) = ShowMemberSelect Transfer 10 [3; 2] /\
  voice_channels (fst (transfer_select w_three 1 10 2)) !! 10 = Some 2 /\
  stored_owners (fst (transfer_select w_three 1 10 2)) 10 = [2] /\
  snd (transfer_select (fst (transfer_select w_three 1 10 2)) 1 10 3) = NoResponse /\
  voice_channels (fst (transfer_select (fst (transfer_select w_three 1 10 2)) 1 10 3)) !! 10 = Some 3 /\
  stored_owners (fst (transfer_select (fst (transfer_select w_three 1 10 2)) 1 10 3)) 10 = [3].
Proof. vm_compute. repeat split. Qed.



(** ** Block and unblock *)

Lemma set_member_overwrite_twice (uid : Z) (ow : Overwrite) (ch : Channel) :
  set_member_overwrite uid ow (set_member_overwrite uid ow ch) = set_member_overwrite uid ow ch.
Proof. unfold set_member_overwrite; simpl. rewrite insert_insert_eq. reflexivity. Qed.

Lemma filter_twice {A} (P : A -> Prop) `{!forall x, Decision (P x)} (l : list A) :
  filter P (filter P l) = filter P l.
Proof.
  rewrite list_filter_filter. apply list_filter_iff. intros x. tauto.
Qed.

Lemma unblock_user_eq (w : World) (cid uid : Z) :
  unblock_user w cid uid =
  set_channels
    (match channels w !! cid with
     | Some _ => if bool_decide (uid ∈ members w)
                 then alter (set_member_overwrite uid (ow_connect_only (Some true))) cid (channels w)
                 else channels w
     | None => channels w
     end)
    (set_db (set_blocked_rows (filter (fun p => negb (bool_decide (p = (cid, uid))))
                                 (db_blocked_users (db w))) (db w)) w).
Proof.
  unfold unblock_user, update_channel; simpl.
  destruct (channels w !! cid); [|reflexivity].
  destruct (bool_decide _); reflexivity.
Qed.

Lemma unblock_user_idem (w : World) (cid uid : Z) :
  unblock_user (unblock_user w cid uid) cid uid = unblock_user w cid uid.
Proof.
  rewrite (unblock_user_eq (unblock_user w cid uid)), (unblock_user_eq w).
  unfold set_channels, set_db, set_blocked_rows; simpl.
  rewrite filter_twice.
  destruct (channels w !! cid) as [ch|] eqn:Hc; simpl.
  - case_bool_decide as Hm; simpl.
    + rewrite lookup_alter_eq, Hc. simpl.
      rewrite alter_alter_eq.
      rewrite (alter_ext _ (set_member_overwrite uid (ow_connect_only (Some true))))
        by (intros x _; apply set_member_overwrite_twice).
      reflexivity.
    + rewrite Hc. reflexivity.
  - rewrite Hc. reflexivity.
Qed.

Lemma block_user_db (w : World) (cid uid : Z) :
  db_blocked_users (db (block_user w cid uid)) =
  (if existsb (fun p => bool_decide (p = (cid, uid))) (db_blocked_users (db w))
   then db_blocked_users (db w) else db_blocked_users (db w) ++ [(cid, uid)]).
Proof. unfold block_user. repeat case_match; reflexivity. Qed.

Lemma block_user_members (w : World) (cid uid : Z) :
  members (block_user w cid uid) = members w.
Proof. unfold block_user. repeat case_match; reflexivity. Qed.

Lemma block_user_channel (w : World) (cid uid : Z) :
  channels (block_user w cid uid) !! cid =
  match channels w !! cid with
  | Some ch => Some (if bool_decide (uid ∈ members w)
                     then set_member_overwrite uid (ow_connect_only (Some false)) ch else ch)
  | None => None
  end.
Proof.
  unfold block_user, update_channel, set_db, set_channels, set_voice.
  simpl.
  destruct (channels w !! cid) as [ch|] eqn:Hc; simpl; [|exact Hc].
  case_bool_decide as Hm; simpl; [|exact Hc].
  case_bool_decide; simpl; rewrite lookup_alter_eq, Hc; reflexivity.
Qed.

(** C6 (counterexample): user 2 has no overwrite on channel 10, so its
    connect right there is inherited; after block then unblock it is an
    explicit allow. *)
Lemma block_unblock_explicit_allow :
  connect_right w_sample 10 2 = Some None /\
  connect_right (unblock_user (block_user w_sample 10 2) 10 2) 10 2 = Some (Some true).
Proof. vm_compute. split; reflexivity. Qed.

(** C6 (amended): unblock after block removes the (R, U) row; when R is
    live and U a guild member, U's connect overwrite on R ends as an
    explicit allow whatever it was before the block (nothing records the
    old value); otherwise it is untouched.  Unblock repeated is a no-op. *)
Theorem block_unblock_roundtrip (w : World) (cid uid : Z) :
  db_blocked_users (db (unblock_user (block_user w cid uid) cid uid)) =
    filter (fun p => negb (bool_decide (p = (cid, uid)))) (db_blocked_users (db w)) /\
  connect_right (unblock_user (block_user w cid uid) cid uid) cid uid =
    match channels w !! cid with
    | Some _ => if bool_decide (uid ∈ members w) then Some (Some true)
                else connect_right w cid uid
    | None => None
    end /\
  (forall w0 : World, unblock_user (unblock_user w0 cid uid) cid uid = unblock_user w0 cid uid).
Proof.
  split; [|split; [|intros w0; apply unblock_user_idem]].
  - assert (Hdb : db_blocked_users (db (unblock_user (block_user w cid uid) cid uid)) =
                  filter (fun p => negb (bool_decide (p = (cid, uid))))
                    (db_blocked_users (db (block_user w cid uid)))).
    { unfold unblock_user. repeat case_match; reflexivity. }
    rewrite Hdb, block_user_db. case_match; [reflexivity|].
    rewrite filter_app. simpl. rewrite filter_cons_False, app_nil_r; [reflexivity|].
    rewrite bool_decide_eq_true_2 by reflexivity. simpl. tauto.
  - rewrite unblock_user_eq. unfold connect_right, set_channels, set_db; simpl.
    rewrite block_user_channel, block_user_members.
    destruct (channels w !! cid) as [ch|] eqn:Hc; simpl;
      [|rewrite block_user_channel, Hc; reflexivity].
    case_bool_decide as Hm; simpl.
    + rewrite lookup_alter_eq, block_user_channel, Hc.
      rewrite bool_decide_eq_true_2 by exact Hm. simpl.
      unfold overwrites_for; simpl. rewrite lookup_insert_eq. reflexivity.
    + rewrite block_user_channel, Hc, bool_decide_eq_false_2 by exact Hm. reflexivity.
Qed.

(** ** Destruction is triggered by the owner only *)

Lemma create_voice_channel_view (o : CreateOutcome) (w : World) (member R : Z) :
  (forall nid, co_new_channel o = Some nid -> nid <> R) ->
  resource_view (create_voice_channel o w member) R = resource_view w R.
Proof.
  intros Hfresh. unfold create_voice_channel.
  destruct (co_category_found o); simpl; [|reflexivity].
  destruct (co_new_channel o) as [nid|] eqn:Hn; [|reflexivity].
  specialize (Hfresh nid eq_refl).
  unfold resource_view; simpl.
  destruct (co_move_ok o); simpl.
  - unfold insert_vc_row. destruct (existsb _ _); simpl.
    + rewrite lookup_insert_ne by congruence. reflexivity.
    + rewrite !lookup_insert_ne by congruence.
      rewrite filter_app, filter_cons_False, app_nil_r; [reflexivity|].
      simpl. rewrite (proj2 (Z.eqb_neq nid R) Hfresh). simpl. tauto.
  - rewrite lookup_insert_ne by congruence. reflexivity.
Qed.

(** C8: a voice-state event leaving a managed channel R whose recorded
    owner is someone else leaves R, its rows and its registry entry as
    they were, whatever else the event does (the member may land in the
    spawner and get a fresh channel of their own). *)
Theorem non_owner_leave_keeps_resource (cfg : Config) (o : CreateOutcome) (w : World)
  (ev : VoiceEvent) (now : Z) (after_sleep : option Z) (R owner : Z) :
  ev_before ev = Some R -> voice_channels w !! R = Some owner -> owner <> ev_member ev ->
  is_Some (channels w !! R) ->
  (forall nid, co_new_channel o = Some nid -> channels w !! nid = None) ->
  resource_view (on_voice_state_update cfg o w ev now after_sleep) R = resource_view w R.
Proof.
  intros Hb Hr Hne [ch Hch] Hfresh.
  assert (Hnid : forall nid, co_new_channel o = Some nid -> nid <> R).
  { intros nid Hn E. subst nid. specialize (Hfresh R Hn). congruence. }
  unfold on_voice_state_update.
  destruct (ev_bot ev); [reflexivity|].
  case_bool_decide.
  - unfold is_on_cooldown.
    destruct (cooldowns w !! ev_member ev) as [last|].
    + destruct (now - last <? cooldown_time cfg); [reflexivity|].
      rewrite create_voice_channel_view by exact Hnid. reflexivity.
    + rewrite create_voice_channel_view by exact Hnid. reflexivity.
  - rewrite Hb, Hr. rewrite (proj2 (Z.eqb_neq owner (ev_member ev)) Hne). reflexivity.
Qed.

(** User 2 (not the owner) leaves channel 10 of [w_sample] for no channel. *)
Lemma non_owner_leave_keeps_resource_witness :
  resource_view
    (on_voice_state_update DEFAULT_CONFIG move_fails w_sample
       {| ev_member := 2; ev_bot := false; ev_before := Some 10; ev_after := None |}
       0 None) 10 =
  resource_view w_sample 10.
Proof.
  apply (non_owner_leave_keeps_resource DEFAULT_CONFIG move_fails w_sample
           {| ev_member := 2; ev_bot := false; ev_before := Some 10; ev_after := None |}
           0 None 10 1);
    [reflexivity | reflexivity | simpl; lia | vm_compute; eauto |
     intros nid Hn; vm_compute in Hn; injection Hn as <-; reflexivity].
Defined.

(** ** Reconciliation at startup *)

Lemma filter_all {A} (P : A -> Prop) `{!forall x, Decision (P x)} (l : list A) :
  (forall x, x ∈ l -> P x) -> filter P l = l.
Proof.
  induction l as [|x l IH]; intros Hall; [reflexivity|].
  rewrite filter_cons_True by (apply Hall; left).
  f_equal. apply IH. intros y Hy. apply Hall. right. exact Hy.
Qed.

Lemma load_fold (l : list (Z * Z)) (w : World) :
  fold_left load_step l w =
  set_voice_channels (fold_left (load_reg_step (channels w)) l (voice_channels w))
    (set_db (fold_left (load_db_step (channels w)) l (db w)) w).
Proof.
  revert w. induction l as [|[c o] l IH]; intros w; simpl.
  - destruct w; reflexivity.
  - rewrite IH. unfold load_step, load_reg_step, load_db_step; simpl.
    destruct (channels w !! c); reflexivity.
Qed.

Lemma gone_b_absent (cs : gmap Z Channel) (l : list (Z * Z)) (c : Z) :
  gone_b cs l c = true -> cs !! c = None.
Proof.
  unfold gone_b. rewrite existsb_exists. intros ([c' o] & _ & H).
  apply andb_true_iff in H as [H1 H2]. simpl in *.
  apply bool_decide_eq_true_1 in H1. apply Z.eqb_eq in H2. subst. exact H1.
Qed.

Lemma load_db_fold (cs : gmap Z Channel) (l : list (Z * Z)) (d : Db) :
  fold_left (load_db_step cs) l d =
  set_blocked_rows (filter (fun p => negb (gone_b cs l p.1)) (db_blocked_users d))
    (set_vc_rows (filter (fun r => negb (gone_b cs l (vc_channel_id r))) (db_voice_channels d)) d).
Proof.
  revert d. induction l as [|[c o] l IH]; intros d; simpl.
  - unfold set_blocked_rows, set_vc_rows; simpl.
    rewrite !filter_all by (intros; exact I).
    destruct d; reflexivity.
  - rewrite IH. unfold load_db_step. simpl.
    destruct (cs !! c) as [ch|] eqn:Hc.
    + unfold set_blocked_rows, set_vc_rows; simpl.
      f_equal; apply list_filter_iff; intros x;
        rewrite bool_decide_eq_false_2 by congruence; simpl; tauto.
    + unfold delete_rows_of, set_blocked_rows, set_vc_rows; simpl.
      f_equal; rewrite list_filter_filter; apply list_filter_iff; intros x;
        rewrite ?bool_decide_eq_true_2 by reflexivity; simpl;
        [destruct (gone_b cs l (vc_channel_id x)), (Z.eqb_spec (vc_channel_id x) c),
           (Z.eqb_spec c (vc_channel_id x))
        |destruct (gone_b cs l x.1), (Z.eqb_spec x.1 c), (Z.eqb_spec c x.1)];
        simpl; intuition congruence.
Qed.

Lemma filter_ext_in {A} (P Q : A -> Prop) `{!forall x, Decision (P x)}
  `{!forall x, Decision (Q x)} (l : list A) :
  (forall x, x ∈ l -> (P x <-> Q x)) -> filter P l = filter Q l.
Proof.
  induction l as [|x l IH]; intros Hpq; [reflexivity|].
  rewrite !filter_cons.
  assert (IH' : filter P l = filter Q l)
    by (apply IH; intros y Hy; apply Hpq; right; exact Hy).
  rewrite IH'.
  destruct (decide (P x)) as [Hp|Hp], (decide (Q x)) as [Hq|Hq]; try reflexivity.
  - exfalso. apply Hq. apply Hpq; [left | exact Hp].
  - exfalso. apply Hp. apply Hpq; [left | exact Hq].
Qed.

Lemma gone_b_rows (cs : gmap Z Channel) (d : Db) (r : VcRow) :
  r ∈ db_voice_channels d ->
  (gone_b cs (vc_pairs d) (vc_channel_id r) = true <-> cs !! vc_channel_id r = None).
Proof.
  intros Hr. split; [apply gone_b_absent|].
  intros Hn. unfold gone_b. apply existsb_exists.
  exists (vc_channel_id r, vc_owner_id r). split.
  - unfold vc_pairs. apply (in_map (fun r => (vc_channel_id r, vc_owner_id r))).
    apply list_elem_of_In. exact Hr.
  - simpl. rewrite bool_decide_eq_true_2 by exact Hn. rewrite Z.eqb_refl. reflexivity.
Qed.

Lemma load_reg_union (cs : gmap Z Channel) (l : list (Z * Z)) (m : gmap Z Z) :
  fold_left (load_reg_step cs) l m = fold_left (load_reg_step cs) l ∅ ∪ m.
Proof.
  revert m. induction l as [|[c o] l IH]; intros m; simpl.
  - by rewrite (left_id_L ∅ (∪)).
  - change (load_reg_step cs m (c, o)) with
      (match cs !! c with Some _ => <[c := o]> m | None => m end).
    change (load_reg_step cs ∅ (c, o)) with
      (match cs !! c with Some _ => <[c := o]> (∅ : gmap Z Z) | None => ∅ end).
    destruct (cs !! c).
    + rewrite IH, (IH (<[c:=o]> ∅)), <- (assoc_L (∪)), <- insert_union_l.
      by rewrite (left_id_L ∅ (∪)).
    + rewrite IH, (IH ∅). by rewrite (right_id_L ∅ (∪)).
Qed.

Lemma load_reg_notin (cs : gmap Z Channel) (l : list (Z * Z)) (m : gmap Z Z) (c : Z) :
  (forall o, (c, o) ∉ l) -> fold_left (load_reg_step cs) l m !! c = m !! c.
Proof.
  revert m. induction l as [|[c' o'] l IH]; intros m Hn; [reflexivity|].
  simpl. rewrite IH by (intros o Ho; apply (Hn o); right; exact Ho).
  unfold load_reg_step; simpl. destruct (cs !! c'); [|reflexivity].
  rewrite lookup_insert_ne; [reflexivity|].
  intros ->. apply (Hn o'). left.
Qed.

Lemma load_reg_absent (cs : gmap Z Channel) (l : list (Z * Z)) (m : gmap Z Z) (c : Z) :
  cs !! c = None -> fold_left (load_reg_step cs) l m !! c = m !! c.
Proof.
  intros Hc. revert m. induction l as [|[c' o'] l IH]; intros m; [reflexivity|].
  simpl. rewrite IH. unfold load_reg_step; simpl.
  destruct (cs !! c') eqn:Hc'; [|reflexivity].
  rewrite lookup_insert_ne; [reflexivity | congruence].
Qed.

Lemma load_reg_last (cs : gmap Z Channel) (l : list (Z * Z)) (m : gmap Z Z) (c o : Z) :
  NoDup (map fst l) -> (c, o) ∈ l -> is_Some (cs !! c) ->
  fold_left (load_reg_step cs) l m !! c = Some o.
Proof.
  revert m. induction l as [|[c' o'] l IH]; intros m Hnd Hin Hlive;
    [apply elem_of_nil in Hin; contradiction|].
  simpl in Hnd. apply NoDup_cons in Hnd as [Hnotin Hnd].
  apply elem_of_cons in Hin as [Heq | Hin].
  - injection Heq as -> ->. simpl.
    rewrite load_reg_notin.
    + unfold load_reg_step; simpl. destruct Hlive as [ch Hch]. rewrite Hch.
      apply lookup_insert_eq.
    + intros o Ho. apply Hnotin. apply list_elem_of_In.
      apply (in_map fst l (c', o)). apply list_elem_of_In. exact Ho.
  - simpl. apply IH; assumption.
Qed.

Lemma load_reg_filter (cs : gmap Z Channel) (l : list (Z * Z)) (rs : list VcRow) (m : gmap Z Z) :
  fold_left (load_reg_step cs)
    (map (fun r => (vc_channel_id r, vc_owner_id r))
       (filter (fun r => negb (gone_b cs l (vc_channel_id r))) rs)) m =
  fold_left (load_reg_step cs) (map (fun r => (vc_channel_id r, vc_owner_id r)) rs) m.
Proof.
  revert m. induction rs as [|r rs IH]; intros m; [reflexivity|].
  rewrite filter_cons. case_decide as Hk; cbn [map fold_left]; rewrite IH; [reflexivity|].
  destruct (gone_b cs l (vc_channel_id r)) eqn:Hg; [|contradiction Hk; exact I].
  assert (Hs : load_reg_step cs m (vc_channel_id r, vc_owner_id r) = m)
    by (unfold load_reg_step; simpl; rewrite (gone_b_absent _ _ _ Hg); reflexivity).
  rewrite Hs. reflexivity.
Qed.

Lemma gone_b_spec (cs : gmap Z Channel) (d : Db) (c : Z) :
  gone_b cs (vc_pairs d) c = true <->
  exists r, r ∈ db_voice_channels d /\ vc_channel_id r = c /\ cs !! c = None.
Proof.
  unfold gone_b, vc_pairs. rewrite existsb_exists. split.
  - intros (p & Hp & H). apply in_map_iff in Hp as (r & <- & Hr). simpl in H.
    apply andb_true_iff in H as [H1 H2].
    apply bool_decide_eq_true_1 in H1. apply Z.eqb_eq in H2.
    exists r. split; [apply list_elem_of_In; exact Hr|]. split; [exact H2|]. subst c. exact H1.
  - intros (r & Hr & <- & Hn). exists (vc_channel_id r, vc_owner_id r). split.
    + apply (in_map (fun r => (vc_channel_id r, vc_owner_id r))). apply list_elem_of_In. exact Hr.
    + simpl. rewrite bool_decide_eq_true_2 by exact Hn. rewrite Z.eqb_refl. reflexivity.
Qed.

Lemma gone_b_none (cs : gmap Z Channel) (l : list (Z * Z)) (c : Z) :
  (forall p, In p l -> is_Some (cs !! p.1)) -> gone_b cs l c = false.
Proof.
  intros Hall. unfold gone_b. apply not_true_iff_false. rewrite existsb_exists.
  intros (p & Hp & H). apply andb_true_iff in H as [H1 _].
  apply bool_decide_eq_true_1 in H1. destruct (Hall p Hp) as [ch Hch]. congruence.
Qed.

Lemma db_eta (d : Db) :
  set_blocked_rows (db_blocked_users d) (set_vc_rows (db_voice_channels d) d) = d.
Proof. destruct d; reflexivity. Qed.

Lemma world_eta (w : World) : set_voice_channels (voice_channels w) (set_db (db w) w) = w.
Proof. destruct w; reflexivity. Qed.

Lemma load_voice_channels_unfold (w : World) :
  load_voice_channels w =
  set_voice_channels (fold_left (load_reg_step (channels w)) (vc_pairs (db w)) (voice_channels w))
    (set_db
       (set_blocked_rows
          (filter (fun p => negb (gone_b (channels w) (vc_pairs (db w)) p.1)) (db_blocked_users (db w)))
          (set_vc_rows
             (filter (fun r => negb (gone_b (channels w) (vc_pairs (db w)) (vc_channel_id r)))
                (db_voice_channels (db w))) (db w))) w).
Proof. rewrite <- load_db_fold. unfold load_voice_channels, vc_pairs. apply load_fold. Qed.

Lemma load_voice_channels_twice (w : World) :
  load_voice_channels (load_voice_channels w) = load_voice_channels w.
Proof.
  rewrite (load_voice_channels_unfold (load_voice_channels w)).
  set (w1 := load_voice_channels w).
  assert (Hcs : channels w1 = channels w) by (subst w1; rewrite load_voice_channels_unfold; reflexivity).
  assert (Hrows : db_voice_channels (db w1) =
    filter (fun r => negb (gone_b (channels w) (vc_pairs (db w)) (vc_channel_id r)))
      (db_voice_channels (db w))) by (subst w1; rewrite load_voice_channels_unfold; reflexivity).
  assert (Hreg : voice_channels w1 =
    fold_left (load_reg_step (channels w)) (vc_pairs (db w)) (voice_channels w))
    by (subst w1; rewrite load_voice_channels_unfold; reflexivity).
  assert (Hlive : forall p, In p (vc_pairs (db w1)) -> is_Some (channels w !! p.1)).
  { intros p Hp. unfold vc_pairs in Hp. rewrite Hrows in Hp.
    apply in_map_iff in Hp as (r & <- & Hr). apply list_elem_of_In in Hr.
    apply list_elem_of_filter in Hr as [Hk Hr]. simpl.
    destruct (gone_b (channels w) (vc_pairs (db w)) (vc_channel_id r)) eqn:Hg; [contradiction|].
    destruct (channels w !! vc_channel_id r) eqn:Hc; [eauto|].
    apply (gone_b_rows (channels w) (db w) r Hr) in Hc. congruence. }
  rewrite Hcs.
  rewrite !filter_all by (intros x _; rewrite (gone_b_none _ _ _ Hlive); exact I).
  rewrite db_eta.
  assert (Hfix : fold_left (load_reg_step (channels w)) (vc_pairs (db w1)) (voice_channels w1) =
                 voice_channels w1).
  { rewrite Hreg, (load_reg_union _ (vc_pairs (db w1))), (load_reg_union _ (vc_pairs (db w))).
    unfold vc_pairs at 1. rewrite Hrows, load_reg_filter.
    rewrite (assoc_L (∪)), (idemp_L (∪)). reflexivity. }
  rewrite Hfix. apply world_eta.
Qed.

(** C7 (counterexample): channel 10 is gone from the platform in
    [w_stale], yet after reconciliation the registry still maps it to
    owner 1, while its table row has been deleted. *)
Lemma load_voice_channels_keeps_stale_entry :
  channels w_stale !! 10 = None /\
  voice_channels w_stale !! 10 = Some 1 /\
  voice_channels (load_voice_channels w_stale) !! 10 = Some 1 /\
  db_voice_channels (db (load_voice_channels w_stale)) = [].
Proof. vm_compute. repeat split. Qed.

(** C7: one run of [load_voice_channels] keeps exactly the table rows whose
    channel exists on the platform, deletes the blocked-user rows of every
    channel a row names that is absent, leaves the registry entry of an
    absent channel as it was, sets the registry entry of each present
    channel to its stored owner (channel ids being the table's primary
    key), and leaves the platform untouched; a second run in succession
    changes nothing. *)
Theorem load_voice_channels_reconciles (w : World) :
  load_voice_channels (load_voice_channels w) = load_voice_channels w /\
  channels (load_voice_channels w) = channels w /\
  db_voice_channels (db (load_voice_channels w)) =
    filter (fun r => is_Some (channels w !! vc_channel_id r)) (db_voice_channels (db w)) /\
  (forall p, p ∈ db_blocked_users (db (load_voice_channels w)) <->
     p ∈ db_blocked_users (db w) /\
     ~ (exists r, r ∈ db_voice_channels (db w) /\ vc_channel_id r = p.1 /\
                  channels w !! p.1 = None)) /\
  (forall cid, channels w !! cid = None ->
     voice_channels (load_voice_channels w) !! cid = voice_channels w !! cid) /\
  (NoDup (map vc_channel_id (db_voice_channels (db w))) ->
   forall r, r ∈ db_voice_channels (db w) -> is_Some (channels w !! vc_channel_id r) ->
   voice_channels (load_voice_channels w) !! vc_channel_id r = Some (vc_owner_id r)).
Proof.
  split; [apply load_voice_channels_twice|].
  rewrite load_voice_channels_unfold. simpl.
  split; [reflexivity|]. split; [|split; [|split]].
  - apply filter_ext_in. intros r Hr.
    destruct (gone_b (channels w) (vc_pairs (db w)) (vc_channel_id r)) eqn:Hg; simpl.
    + apply (gone_b_rows _ _ _ Hr) in Hg. rewrite Hg. split; [contradiction|].
      intros H. inversion H. discriminate.
    + split; [intros _|tauto].
      destruct (channels w !! vc_channel_id r) eqn:Hc; [eauto|].
      apply (gone_b_rows _ _ _ Hr) in Hc. congruence.
  - intros p. rewrite list_elem_of_filter, <- gone_b_spec.
    destruct (gone_b (channels w) (vc_pairs (db w)) p.1); simpl; intuition congruence.
  - intros cid Hc. apply load_reg_absent. exact Hc.
  - intros Hnd r Hr Hlive. apply load_reg_last; [| |exact Hlive].
    + unfold vc_pairs. rewrite map_map. exact Hnd.
    + apply list_elem_of_In. unfold vc_pairs.
      apply (in_map (fun r => (vc_channel_id r, vc_owner_id r))).
      apply list_elem_of_In. exact Hr.
Qed.

(** Channel 10 of [w_sample] is live and its single row names owner 1. *)
Lemma load_voice_channels_reconciles_witness :
  NoDup (map vc_channel_id (db_voice_channels (db w_sample))) /\
  voice_channels (load_voice_channels w_sample) !! 10 = Some 1.
Proof.
  assert (Hnd : NoDup (map vc_channel_id (db_voice_channels (db w_sample)))).
  { simpl. constructor; [intros H; inversion H | constructor]. }
  split; [exact Hnd|].
  apply (proj2 (proj2 (proj2 (proj2 (proj2 (load_voice_channels_reconciles w_sample))))) Hnd
           {| vc_channel_id := 10; vc_owner_id := 1; vc_interface_message_id := None |}).
  - simpl. left.
  - vm_compute. eauto.
Defined.

(** * Further properties of the code *)

(** ** Helpers *)

Lemma filter_none {A} (P : A -> Prop) `{!forall x, Decision (P x)} (l : list A) :
  (forall x, x ∈ l -> ~ P x) -> filter P l = [].
Proof.
  induction l as [|x l IH]; intros Hn; [reflexivity|].
  rewrite filter_cons_False by (apply Hn; left).
  apply IH. intros y Hy. apply Hn. right. exact Hy.
Qed.

Lemma filter_eq_after_neq {A} (f : A -> Z) (c cid : Z) (l : list A) :
  filter (fun r => f r =? c) (filter (fun r => negb (f r =? cid)) l) =
  if c =? cid then [] else filter (fun r => f r =? c) l.
Proof.
  rewrite list_filter_filter. destruct (Z.eqb_spec c cid) as [->|Hne].
  - apply filter_none. intros x _ [H1 H2]. destruct (f x =? cid); simpl in *; contradiction.
  - apply list_filter_iff. intros x.
    destruct (Z.eqb_spec (f x) c), (Z.eqb_spec (f x) cid); simpl; intuition congruence.
Qed.

Lemma delete_voice_channel_facts (w : World) (cid : Z) :
  resource_view (delete_voice_channel w cid) cid = (None, [], [], None) /\
  (forall u, voice (delete_voice_channel w cid) !! u <> Some cid) /\
  (forall c, c <> cid -> resource_view (delete_voice_channel w cid) c = resource_view w c) /\
  (forall u c, c <> cid ->
     voice (delete_voice_channel w cid) !! u = Some c <-> voice w !! u = Some c) /\
  cooldowns (delete_voice_channel w cid) = cooldowns w /\
  members (delete_voice_channel w cid) = members w /\
  db_user_invites (db (delete_voice_channel w cid)) = db_user_invites (db w).
Proof.
  unfold delete_voice_channel, resource_view, delete_rows_of; simpl.
  split; [|split; [|split; [|split; [|split; [|split]]]]]; try reflexivity.
  - rewrite !lookup_delete_eq, !filter_eq_after_neq, Z.eqb_refl. reflexivity.
  - intros u Hu. apply map_lookup_filter_Some in Hu as [_ Hu]. simpl in Hu. congruence.
  - intros c Hc. rewrite !lookup_delete_ne by congruence.
    rewrite !filter_eq_after_neq, (proj2 (Z.eqb_neq c cid) Hc). reflexivity.
  - intros u c Hc. rewrite map_lookup_filter_Some. simpl.
    split; [intros [H _]; exact H | intros H; split; [exact H | congruence]].
Qed.

Lemma map_fst_fmap {A B} (l : list (A * B)) : map fst l = l.*1.
Proof. induction l as [|x l IH]; simpl; [reflexivity | rewrite IH; reflexivity]. Qed.

Lemma channel_members_NoDup (w : World) (cid : Z) : NoDup (channel_members w cid).
Proof. unfold channel_members. rewrite map_fst_fmap. apply NoDup_fst_map_to_list. Qed.

Lemma channel_members_spec (w : World) (cid u : Z) :
  u ∈ channel_members w cid <-> voice w !! u = Some cid.
Proof.
  unfold channel_members. rewrite list_elem_of_In, in_map_iff. split.
  - intros ([u' c] & Hu & H). simpl in Hu. subst u'.
    apply list_elem_of_In, elem_of_map_to_list, map_lookup_filter_Some in H as [H1 H2].
    simpl in H2. subst c. exact H1.
  - intros H. exists (u, cid). split; [reflexivity|].
    apply list_elem_of_In, elem_of_map_to_list, map_lookup_filter_Some.
    split; [exact H | reflexivity].
Qed.

Lemma get_blocked_users_spec (d : Db) (cid u : Z) :
  u ∈ get_blocked_users d cid <-> (cid, u) ∈ db_blocked_users d.
Proof.
  unfold get_blocked_users. rewrite list_elem_of_In, in_map_iff. split.
  - intros ([c u'] & Hu & H). simpl in Hu. subst u'.
    apply list_elem_of_In, list_elem_of_filter in H as [Hc H]. simpl in Hc.
    apply Is_true_eq_true, Z.eqb_eq in Hc. subst c. exact H.
  - intros H. exists (cid, u). split; [reflexivity|].
    apply list_elem_of_In, list_elem_of_filter. split; [simpl; rewrite Z.eqb_refl; exact I | exact H].
Qed.

Lemma button_validate_update_channel (w : World) (user cid : Z) (f : Channel -> Channel) :
  button_validate w user = inr cid -> button_validate (update_channel cid f w) user = inr cid.
Proof.
  unfold button_validate, is_channel_owner, update_channel; simpl.
  destruct (voice w !! user) as [c|]; [|discriminate].
  destruct (voice_channels w !! c) as [o|]; [|discriminate].
  destruct (negb (o =? user)); [discriminate|].
  destruct (channels w !! c) as [ch|] eqn:Hc; [|discriminate].
  intros [= <-]. rewrite lookup_alter_eq, Hc. reflexivity.
Qed.

(** ** Deleting a channel *)

(** [delete_voice_channel] removes everything the system holds for the
    channel: the platform channel, its rows in both tables, its registry
    entry, and every voice connection to it; the state of every other
    channel, the other connections, the cooldowns, the guild members and
    the invite table are left as they were. *)
Theorem delete_voice_channel_removes_only_it (w : World) (cid : Z) :
  resource_view (delete_voice_channel w cid) cid = (None, [], [], None) /\
  (forall u, voice (delete_voice_channel w cid) !! u <> Some cid) /\
  (forall c, c <> cid -> resource_view (delete_voice_channel w cid) c = resource_view w c) /\
  (forall u c, c <> cid ->
     voice (delete_voice_channel w cid) !! u = Some c <-> voice w !! u = Some c) /\
  cooldowns (delete_voice_channel w cid) = cooldowns w /\
  members (delete_voice_channel w cid) = members w /\
  db_user_invites (db (delete_voice_channel w cid)) = db_user_invites (db w).
Proof. apply delete_voice_channel_facts. Qed.

(** ** Voice-state events *)



(** An owner who moves from their channel [R] straight into the spawner
    takes the creation branch only: [R] keeps its platform channel, its
    rows and its registry entry (the [elif] that would destroy it is not
    reached), whatever happens to the creation. *)
Theorem owner_hop_to_spawner_keeps_channel (cfg : Config) (o : CreateOutcome) (w : World)
  (ev : VoiceEvent) (now : Z) (after_sleep : option Z) (R : Z) :
  ev_bot ev = false -> ev_after ev = Some (create_voice_channel_id cfg) ->
  ev_before ev = Some R -> voice_channels w !! R = Some (ev_member ev) ->
  is_Some (channels w !! R) ->
  (forall nid, co_new_channel o = Some nid -> channels w !! nid = None) ->
  resource_view (on_voice_state_update cfg o w ev now after_sleep) R = resource_view w R.
Proof.
  intros Hb Ha _ _ [ch Hch] Hfresh.
  assert (Hnid : forall nid, co_new_channel o = Some nid -> nid <> R).
  { intros nid Hn E. subst nid. specialize (Hfresh R Hn). congruence. }
  unfold on_voice_state_update. rewrite Hb, bool_decide_eq_true_2 by exact Ha.
  unfold is_on_cooldown.
  destruct (cooldowns w !! ev_member ev) as [last|].
  - destruct (now - last <? cooldown_time cfg); [reflexivity|].
    rewrite create_voice_channel_view by exact Hnid. reflexivity.
  - rewrite create_voice_channel_view by exact Hnid. reflexivity.
Qed.

(** Owner 1 hops from channel 10 into the spawner; channel 20 is created. *)
Lemma owner_hop_to_spawner_keeps_channel_witness :
  resource_view
    (on_voice_state_update DEFAULT_CONFIG move_fails w_sample
       {| ev_member := 1; ev_bot := false; ev_before := Some 10;
          ev_after := Some (create_voice_channel_id DEFAULT_CONFIG) |} 0 None) 10 =
  resource_view w_sample 10.
Proof.
  apply (owner_hop_to_spawner_keeps_channel DEFAULT_CONFIG move_fails w_sample
           {| ev_member := 1; ev_bot := false; ev_before := Some 10;
              ev_after := Some (create_voice_channel_id DEFAULT_CONFIG) |} 0 None 10);
    [reflexivity | reflexivity | reflexivity | reflexivity | vm_compute; eauto |].
  intros nid Hn. vm_compute in Hn. injection Hn as <-. reflexivity.
Defined.

(** ** Creating a channel *)

Lemma existsb_vc_fresh (rs : list VcRow) (nid : Z) :
  Forall (fun r => vc_channel_id r <> nid) rs ->
  existsb (fun r => vc_channel_id r =? nid) rs = false.
Proof.
  intros Hf. apply not_true_iff_false. rewrite existsb_exists.
  intros (r & Hr & E). apply Z.eqb_eq in E.
  rewrite Forall_forall in Hf. exact (Hf r (proj2 (list_elem_of_In _ _) Hr) E).
Qed.

(** A successful creation (category found, channel [nid] created, the
    member moved into it, [nid] not yet in the table) registers the member
    as owner of [nid] in the registry and in one new row, gives them the
    owner overwrite, and leaves them able to use the control panel: from
    inside [nid] they pass all four checks of every button. *)
Theorem create_voice_channel_success (o : CreateOutcome) (w : World) (member nid : Z) :
  co_category_found o = true -> co_new_channel o = Some nid -> co_move_ok o = true ->
  Forall (fun r => vc_channel_id r <> nid) (db_voice_channels (db w)) ->
  voice_channels (create_voice_channel o w member) = <[nid := member]> (voice_channels w) /\
  db_voice_channels (db (create_voice_channel o w member)) =
    db_voice_channels (db w) ++
      [{| vc_channel_id := nid; vc_owner_id := member; vc_interface_message_id := None |}] /\
  db_blocked_users (db (create_voice_channel o w member)) = db_blocked_users (db w) /\
  ((fun ch => overwrites_for ch member) <$> (channels (create_voice_channel o w member) !! nid)) =
    Some (overwrites_for (new_channel member) member) /\
  overwrites_for (new_channel member) member = ow_owner /\
  button_validate (create_voice_channel o w member) member = inr nid.
Proof.
  intros Hc Hn Hm Hf. unfold create_voice_channel. rewrite Hc, Hn, Hm. simpl.
  unfold insert_vc_row. rewrite existsb_vc_fresh by exact Hf. simpl.
  split; [reflexivity|]. split; [reflexivity|]. split; [reflexivity|].
  split; [rewrite lookup_insert_eq; reflexivity|].
  split; [unfold overwrites_for; simpl; rewrite lookup_singleton_eq; reflexivity|].
  unfold button_validate, is_channel_owner; simpl.
  rewrite !lookup_insert_eq, Z.eqb_refl. reflexivity.
Qed.

(** User 1 of [w_spawn] gets channel 20. *)
Lemma create_voice_channel_success_witness :
  button_validate
    (create_voice_channel {| co_category_found := true; co_new_channel := Some 20;
                             co_move_ok := true |} w_spawn 1) 1 = inr 20.
Proof.
  apply (create_voice_channel_success
           {| co_category_found := true; co_new_channel := Some 20; co_move_ok := true |}
           w_spawn 1 20); [reflexivity | reflexivity | reflexivity | constructor].
Defined.

(** ** Buttons of the control panel *)

(** For an actor who passes the checks, Kick and Transfer change nothing
    and either answer that nobody else is in the channel (and indeed the
    actor is its only occupant) or offer a member select over the first
    25 of a list holding each other occupant of the channel once
    ([members[:25]]): all of them when there are at most 25. *)
Theorem member_select_choices (k : ButtonKind) (w : World) (user cid : Z) :
  (k = Kick \/ k = Transfer) -> button_validate w user = inr cid -> cid <> 0 ->
  fst (button_callback k w user) = w /\
  ((snd (button_callback k w user) = NoOtherMembers /\
    forall u, voice w !! u = Some cid -> u = user) \/
   exists others, others <> [] /\ NoDup others /\
     snd (button_callback k w user) = ShowMemberSelect k cid (firstn 25 others) /\
     forall u, u ∈ others <-> voice w !! u = Some cid /\ u <> user).
Proof.
  intros Hk Hv H0. unfold button_callback. rewrite Hv, (proj2 (Z.eqb_neq cid 0) H0).
  assert (Hspec : forall u, u ∈ filter (fun m => m <> user) (channel_members w cid) <->
                            voice w !! u = Some cid /\ u <> user).
  { intros u. rewrite list_elem_of_filter, channel_members_spec. tauto. }
  assert (Hnd : NoDup (filter (fun m => m <> user) (channel_members w cid)))
    by (apply NoDup_filter, channel_members_NoDup).
  destruct Hk as [-> | ->]; simpl;
    destruct (filter (fun m => m <> user) (channel_members w cid)) as [|x xs] eqn:E;
    (split; [reflexivity|]).
  - left. split; [reflexivity|]. intros u Hu.
    destruct (decide (u = user)) as [|Hne]; [assumption|].
    exfalso. apply (elem_of_nil u). apply Hspec. split; assumption.
  - right. exists (x :: xs). split; [discriminate|].
    split; [exact Hnd|]. split; [reflexivity|]. exact Hspec.
  - left. split; [reflexivity|]. intros u Hu.
    destruct (decide (u = user)) as [|Hne]; [assumption|].
    exfalso. apply (elem_of_nil u). apply Hspec. split; assumption.
  - right. exists (x :: xs). split; [discriminate|].
    split; [exact Hnd|]. split; [reflexivity|]. exact Hspec.
Qed.

(** Owner 1 presses Kick in channel 10 of [w_sample], shared with user 2. *)
Lemma member_select_choices_witness :
  button_callback Kick w_sample 1 = (w_sample, ShowMemberSelect Kick 10 [2]).
Proof.
  destruct (member_select_choices Kick w_sample 1 10 (or_introl eq_refl) eq_refl
              ltac:(discriminate)) as [_ _].
  vm_compute. reflexivity.
Defined.

(** Two Lock presses by the owner of a channel whose default-role connect
    is not an explicit deny answer "locked" then "unlocked" and leave the
    default-role overwrite at connect = None (inherit): the explicit allow
    a new channel is created with is not restored, and the other flags of
    that overwrite are dropped. *)
Theorem lock_pressed_twice (w : World) (user cid : Z) (ch : Channel) :
  button_validate w user = inr cid -> cid <> 0 -> channels w !! cid = Some ch ->
  ow_connect (ch_default ch) <> Some false ->
  snd (button_callback Lock w user) = Locked /\
  (ch_default <$> (channels (fst (button_callback Lock w user)) !! cid)) =
    Some (ow_connect_only (Some false)) /\
  snd (button_callback Lock (fst (button_callback Lock w user)) user) = Unlocked /\
  (ch_default <$> (channels (fst (button_callback Lock (fst (button_callback Lock w user)) user)) !! cid)) =
    Some (ow_connect_only None).
Proof.
  intros Hv H0 Hc Hnf.
  assert (Hfirst : button_callback Lock w user =
    (update_channel cid (set_default_overwrite (ow_connect_only (Some false))) w, Locked)).
  { unfold button_callback. rewrite Hv, (proj2 (Z.eqb_neq cid 0) H0), Hc.
    unfold lock_toggle. destruct (ow_connect (ch_default ch)) as [[|]|]; [reflexivity | | reflexivity].
    exfalso. apply Hnf. reflexivity. }
  rewrite Hfirst. cbn [fst snd].
  set (w1 := update_channel cid (set_default_overwrite (ow_connect_only (Some false))) w).
  assert (Hc1 : channels w1 !! cid = Some (set_default_overwrite (ow_connect_only (Some false)) ch))
    by (subst w1; unfold update_channel; simpl; rewrite lookup_alter_eq, Hc; reflexivity).
  assert (Hsecond : button_callback Lock w1 user =
    (update_channel cid (set_default_overwrite (ow_connect_only None)) w1, Unlocked)).
  { unfold button_callback.
    assert (Hv1 : button_validate w1 user = inr cid)
      by (subst w1; apply button_validate_update_channel; exact Hv).
    rewrite Hv1, (proj2 (Z.eqb_neq cid 0) H0), Hc1. reflexivity. }
  rewrite Hsecond. cbn [fst snd].
  split; [reflexivity|]. split; [|split; [reflexivity|]];
    subst w1; unfold update_channel; simpl; rewrite ?lookup_alter_eq, Hc; reflexivity.
Qed.

(** Owner 1 presses Lock twice in channel 10 of [w_sample]. *)
Lemma lock_pressed_twice_witness :
  snd (button_callback Lock (fst (button_callback Lock w_sample 1)) 1) = Unlocked.
Proof.
  apply (lock_pressed_twice w_sample 1 10 (new_channel 1));
    [reflexivity | discriminate | reflexivity | discriminate].
Defined.

(** ** Blocking and unblocking *)

(** [block_user] adds exactly the row [(cid, uid)] to [blocked_users]
    (INSERT OR IGNORE: it never duplicates a row, even when the channel no
    longer exists on the platform); [unblock_user] removes exactly that
    row and keeps every other. *)
Theorem block_unblock_rows (w : World) (cid uid : Z) :
  (forall p, p ∈ db_blocked_users (db (block_user w cid uid)) <->
             p ∈ db_blocked_users (db w) \/ p = (cid, uid)) /\
  (NoDup (db_blocked_users (db w)) -> NoDup (db_blocked_users (db (block_user w cid uid)))) /\
  (forall p, p ∈ db_blocked_users (db (unblock_user w cid uid)) <->
             p ∈ db_blocked_users (db w) /\ p <> (cid, uid)).
Proof.
  split; [|split].
  - intros p. rewrite block_user_db.
    destruct (existsb (fun p => bool_decide (p = (cid, uid))) (db_blocked_users (db w))) eqn:E.
    + apply existsb_exists in E as (q & Hq & Eq). apply bool_decide_eq_true_1 in Eq. subst q.
      split; [intros H; left; exact H|].
      intros [H | ->]; [exact H | apply list_elem_of_In; exact Hq].
    + rewrite elem_of_app, list_elem_of_singleton. reflexivity.
  - intros Hnd. rewrite block_user_db.
    destruct (existsb (fun p => bool_decide (p = (cid, uid))) (db_blocked_users (db w))) eqn:E;
      [exact Hnd|].
    apply NoDup_app. split; [exact Hnd|]. split; [|apply NoDup_singleton].
    intros x Hx Hx'. apply list_elem_of_singleton in Hx'. subst x.
    apply not_true_iff_false in E. apply E. apply existsb_exists.
    exists (cid, uid). split; [apply list_elem_of_In; exact Hx|].
    apply bool_decide_eq_true_2. reflexivity.
  - intros p. rewrite unblock_user_eq. simpl. rewrite list_elem_of_filter.
    case_bool_decide; simpl; tauto.
Qed.

(** Blocking a guild member on a live channel sets their connect overwrite
    there to an explicit deny and disconnects them if, and only if, they
    are in that channel; every other connection and the registry are
    untouched. *)
Theorem block_user_disconnects (w : World) (cid uid : Z) (ch : Channel) :
  channels w !! cid = Some ch -> uid ∈ members w ->
  connect_right (block_user w cid uid) cid uid = Some (Some false) /\
  voice (block_user w cid uid) !! uid =
    (if bool_decide (voice w !! uid = Some cid) then None else voice w !! uid) /\
  (forall u, u <> uid -> voice (block_user w cid uid) !! u = voice w !! u) /\
  voice_channels (block_user w cid uid) = voice_channels w.
Proof.
  intros Hc Hm.
  split.
  { unfold connect_right. rewrite block_user_channel, Hc, bool_decide_eq_true_2 by exact Hm.
    unfold overwrites_for; simpl. rewrite lookup_insert_eq. reflexivity. }
  unfold block_user, update_channel; simpl. rewrite Hc.
  rewrite bool_decide_eq_true_2 by exact Hm. simpl.
  case_bool_decide as Hv; simpl.
  - split; [apply lookup_delete_eq|]. split; [|reflexivity].
    intros u Hu. apply lookup_delete_ne. congruence.
  - split; [reflexivity|]. split; [reflexivity | reflexivity].
Qed.

(** Blocking user 2, who sits in channel 10 of [w_sample]. *)
Lemma block_user_disconnects_witness :
  voice (block_user w_sample 10 2) !! 2 = None.
Proof.
  destruct (block_user_disconnects w_sample 10 2 (new_channel 1) eq_refl
              ltac:(vm_compute; set_solver)) as (_ & H & _).
  rewrite H. reflexivity.
Defined.

(** ** Transfer *)

(** The transfer select re-checks neither ownership nor the actor's
    presence: whoever submits it, for a live channel and a selected guild
    member other than the actor, the registry and every stored row name
    the selected member as owner, the selected member gets the owner
    overwrite, the actor's overwrite is replaced by connect = True alone
    (dropping manage/move/mute), and no reply is sent. *)
Theorem transfer_select_any_actor (w : World) (actor cid selected : Z) (ch : Channel) :
  channels w !! cid = Some ch -> selected ∈ members w -> actor <> selected ->
  snd (transfer_select w actor cid selected) = NoResponse /\
  voice_channels (fst (transfer_select w actor cid selected)) !! cid = Some selected /\
  stored_owners (fst (transfer_select w actor cid selected)) cid =
    map (fun _ => selected) (stored_owners w cid) /\
  ((fun c => overwrites_for c selected) <$>
     (channels (fst (transfer_select w actor cid selected)) !! cid)) = Some ow_owner /\
  ((fun c => overwrites_for c actor) <$>
     (channels (fst (transfer_select w actor cid selected)) !! cid)) =
    Some (ow_connect_only (Some true)).
Proof.
  intros Hc Hm Hne. unfold transfer_select. rewrite Hc.
  rewrite bool_decide_eq_false_2 by (intros Hn; exact (Hn Hm)).
  cbn [fst snd]. split; [reflexivity|].
  split; [simpl; apply lookup_insert_eq|].
  split; [unfold stored_owners; simpl; apply stored_owners_transfer|].
  unfold update_channel; simpl. rewrite !lookup_alter_eq, Hc. simpl.
  unfold overwrites_for; simpl.
  rewrite lookup_insert_ne by congruence. rewrite !lookup_insert_eq.
  split; reflexivity.
Qed.

(** User 2, not the owner of channel 10, submits a transfer to user 1. *)
Lemma transfer_select_any_actor_witness :
  voice_channels (fst (transfer_select w_sample 2 10 1)) !! 10 = Some 1.
Proof.
  apply (transfer_select_any_actor w_sample 2 10 1 (new_channel 1));
    [reflexivity | vm_compute; set_solver | lia].
Defined.

(** ** Invite *)

(** The invite modal changes nothing unless it reports the invitation as
    sent; then the invited user is another user with no block row for the
    channel, their connect overwrite on it is an explicit allow, and the
    registry, the connections and the blocked rows are unchanged. *)
Theorem invite_on_submit_effect (flt : InviteFaults) (w : World) (cid inviter : Z)
  (user : option Z) (now : Z) :
  (snd (invite_on_submit flt w cid inviter user now) <> InvitationSent ->
   fst (invite_on_submit flt w cid inviter user now) = w) /\
  (snd (invite_on_submit flt w cid inviter user now) = InvitationSent ->
   exists u, user = Some u /\ u <> inviter /\ ((cid, u) ∉ db_blocked_users (db w)) /\
     connect_right (fst (invite_on_submit flt w cid inviter user now)) cid u = Some (Some true) /\
     voice_channels (fst (invite_on_submit flt w cid inviter user now)) = voice_channels w /\
     voice (fst (invite_on_submit flt w cid inviter user now)) = voice w /\
     db_blocked_users (db (fst (invite_on_submit flt w cid inviter user now))) =
       db_blocked_users (db w)).
Proof.
  unfold invite_on_submit.
  destruct user as [u|]; [|split; [reflexivity | discriminate]].
  destruct (Z.eqb_spec u inviter) as [Heq|Hne]; [split; [reflexivity | discriminate]|].
  destruct (check_invite_cooldown _ now); [split; [reflexivity | discriminate]|].
  destruct (channels w !! cid) as [ch|] eqn:Hc; [|split; [reflexivity | discriminate]].
  destruct (fault_blocked_query flt); [split; [reflexivity | discriminate]|].
  case_bool_decide as Hb; [split; [reflexivity | discriminate]|].
  cbn [fst snd]. split; [intros H; exfalso; apply H; reflexivity|]. intros _.
  exists u. split; [reflexivity|]. split; [exact Hne|].
  split; [rewrite <- get_blocked_users_spec; exact Hb|].
  unfold connect_right, save_invite_timestamp, update_channel; simpl.
  destruct (existsb _ _); simpl; rewrite lookup_alter_eq, Hc; simpl;
    unfold overwrites_for; simpl; rewrite lookup_insert_eq; repeat split.
Qed.

(** ** Decimal texts *)

Lemma digit_cases (d : Z) :
  0 <= d <= 9 ->
  d = 0 \/ d = 1 \/ d = 2 \/ d = 3 \/ d = 4 \/ d = 5 \/ d = 6 \/ d = 7 \/ d = 8 \/ d = 9.
Proof. lia. Qed.

Ltac digit_split H :=
  destruct (digit_cases _ H) as [->|[->|[->|[->|[->|[->|[->|[->|[->| ->]]]]]]]]].

Lemma digit_value_char (d : Z) : 0 <= d <= 9 -> digit_value (digit_char d) = Some d.
Proof. intros H. digit_split H; reflexivity. Qed.

Lemma py_isspace_digit (d : Z) : 0 <= d <= 9 -> py_isspace (digit_char d) = false.
Proof. intros H. digit_split H; reflexivity. Qed.

Lemma parse_digits_map (ds : list Z) (acc : Z) (b : bool) :
  Forall (fun d => 0 <= d <= 9) ds -> ds <> [] ->
  parse_digits acc b (map digit_char ds) = Some (fold_left (fun a d => a * 10 + d) ds acc).
Proof.
  revert acc b. induction ds as [|d ds IH]; intros acc b Hf Hne; [contradiction|].
  inversion Hf as [|? ? Hd Hf']; subst. cbn [map parse_digits].
  rewrite digit_value_char by exact Hd.
  destruct ds as [|d' ds']; [reflexivity|].
  apply IH; [exact Hf' | discriminate].
Qed.

Lemma lstrip_keep (c : ascii) (t : list ascii) :
  py_isspace c = false -> lstrip (c :: t) = c :: t.
Proof. intros H. simpl. rewrite H. reflexivity. Qed.

Lemma py_strip_keep (c c' : ascii) (t : list ascii) :
  py_isspace c = false -> py_isspace c' = false -> last (c :: t) = Some c' ->
  py_strip (c :: t) = c :: t.
Proof.
  intros Hc Hc' Hl. unfold py_strip. rewrite lstrip_keep by exact Hc.
  apply last_Some in Hl as [l' Hl']. rewrite Hl'.
  rewrite rev_unit, lstrip_keep by exact Hc'. rewrite <- rev_unit, rev_involutive.
  reflexivity.
Qed.

Lemma py_strip_digits (ds : list Z) :
  Forall (fun d => 0 <= d <= 9) ds -> ds <> [] ->
  py_strip (map digit_char ds) = map digit_char ds.
Proof.
  intros Hf Hne. destruct ds as [|d ds]; [contradiction|].
  destruct (exists_last (l := d :: ds) ltac:(discriminate)) as [init [e He]].
  assert (Hd : 0 <= d <= 9) by (inversion Hf; assumption).
  assert (He9 : 0 <= e <= 9).
  { rewrite Forall_forall in Hf. apply Hf. rewrite He. apply elem_of_app. right. left. }
  cbn [map]. apply (py_strip_keep _ (digit_char e)); [apply py_isspace_digit; exact Hd
                                                    | apply py_isspace_digit; exact He9|].
  change (digit_char d :: map digit_char ds) with (map digit_char (d :: ds)).
  rewrite He, map_app. apply last_snoc.
Qed.

Lemma python_int_digits (ds : list Z) :
  Forall (fun d => 0 <= d <= 9) ds -> ds <> [] ->
  python_int (String.string_of_list_ascii (map digit_char ds)) = Some (digits_value ds).
Proof.
  intros Hf Hne. unfold python_int.
  rewrite String.list_ascii_of_string_of_list_ascii, py_strip_digits by assumption.
  unfold digits_value. rewrite <- (parse_digits_map ds 0 false) by assumption.
  destruct ds as [|d ds]; [contradiction|].
  assert (Hd : 0 <= d <= 9) by (inversion Hf; assumption).
  cbn [map]. digit_split Hd; reflexivity.
Qed.

Lemma bang_digits (ds : list Z) (X : list ascii) :
  X = map digit_char ds -> Forall (fun d => 0 <= d <= 9) ds -> ds <> [] ->
  match X with "!"%char :: t => t | t => t end = X.
Proof.
  intros -> Hf Hne. destruct ds as [|d ds]; [contradiction|].
  assert (Hd : 0 <= d <= 9) by (inversion Hf; assumption).
  cbn [map]. digit_split Hd; reflexivity.
Qed.

Lemma strip_mention_digits (ds : list Z) :
  Forall (fun d => 0 <= d <= 9) ds -> ds <> [] ->
  strip_mention (map digit_char ds) = map digit_char ds.
Proof.
  intros Hf Hne. destruct ds as [|d ds]; [contradiction|].
  assert (Hd : 0 <= d <= 9) by (inversion Hf; assumption).
  cbn [map]. unfold strip_mention. digit_split Hd; reflexivity.
Qed.

Lemma strip_mention_wrapped (X : list ascii) :
  strip_mention ("<"%char :: "@"%char :: X ++ [">"%char]) =
  match X with "!"%char :: t => t | t => t end.
Proof.
  unfold strip_mention. cbv beta iota.
  replace (last ("<"%char :: "@"%char :: X ++ [">"%char])) with (Some ">"%char)
    by (symmetry;
        change ("<"%char :: "@"%char :: X ++ [">"%char])
          with (("<"%char :: "@"%char :: X) ++ [">"%char]);
        apply last_snoc).
  cbv beta iota. cbn [skipn].
  replace (length ("<"%char :: "@"%char :: X ++ [">"%char]) - 3)%nat with (length X)
    by (cbn [length]; rewrite length_app; cbn [length]; lia).
  rewrite drop_0, take_app_length.
  destruct X as [|c t]; [reflexivity|].
  destruct c as [[] [] [] [] [] [] [] []]; reflexivity.
Qed.

Lemma py_strip_wrapped (X : list ascii) :
  py_strip ("<"%char :: "@"%char :: X ++ [">"%char]) = "<"%char :: "@"%char :: X ++ [">"%char].
Proof.
  apply (py_strip_keep _ ">"%char); [reflexivity | reflexivity |].
  change ("<"%char :: "@"%char :: X ++ [">"%char])
    with (("<"%char :: "@"%char :: X) ++ [">"%char]).
  apply last_snoc.
Qed.

Lemma resolve_user_digits (ms : list GuildMember) (ds : list Z) :
  Forall (fun d => 0 <= d <= 9) ds -> ds <> [] ->
  resolve_user ms (String.string_of_list_ascii (map digit_char ds)) =
  get_member ms (digits_value ds).
Proof.
  intros Hf Hne. unfold resolve_user. cbv zeta.
  rewrite String.list_ascii_of_string_of_list_ascii, py_strip_digits, strip_mention_digits,
    python_int_digits by assumption.
  reflexivity.
Qed.

Lemma resolve_user_mention (ms : list GuildMember) (ds : list Z) :
  Forall (fun d => 0 <= d <= 9) ds -> ds <> [] ->
  resolve_user ms (String.string_of_list_ascii ("<"%char :: "@"%char :: map digit_char ds ++ [">"%char])) =
  get_member ms (digits_value ds) /\
  resolve_user ms (String.string_of_list_ascii ("<"%char :: "@"%char :: "!"%char :: map digit_char ds ++ [">"%char])) =
  get_member ms (digits_value ds).
Proof.
  intros Hf Hne. unfold resolve_user. cbv zeta.
  rewrite !String.list_ascii_of_string_of_list_ascii. split.
  - rewrite py_strip_wrapped, strip_mention_wrapped, (bang_digits ds _ eq_refl),
      python_int_digits by assumption.
    reflexivity.
  - change ("<"%char :: "@"%char :: "!"%char :: map digit_char ds ++ [">"%char])
      with ("<"%char :: "@"%char :: ("!"%char :: map digit_char ds) ++ [">"%char]).
    rewrite (py_strip_wrapped ("!"%char :: map digit_char ds)),
      (strip_mention_wrapped ("!"%char :: map digit_char ds)).
    cbv beta iota. rewrite python_int_digits by assumption.
    reflexivity.
Qed.

Lemma py_contains_nil (h : list ascii) : py_contains [] h = true.
Proof. destruct h; reflexivity. Qed.

Lemma resolve_user_stripped_empty (m : GuildMember) (ms : list GuildMember) (t : string) :
  strip_mention (py_strip (String.list_ascii_of_string t)) = [] -> resolve_user (m :: ms) t = Some m.
Proof.
  intros Ht. unfold resolve_user. cbv zeta. rewrite Ht.
  change (python_int (String.string_of_list_ascii [])) with (@None Z). cbv iota.
  cbn [find]. unfold name_matches at 1. change (py_lower []) with (@nil ascii).
  rewrite py_contains_nil. reflexivity.
Qed.

Lemma get_member_id (ms : list GuildMember) (u : Z) (m : GuildMember) :
  get_member ms u = Some m -> gm_id m = u.
Proof. unfold get_member. intros H. apply find_some in H as [_ H]. apply Z.eqb_eq, H. Qed.

Lemma block_user_row (w : World) (cid uid : Z) :
  (cid, uid) ∈ db_blocked_users (db (block_user w cid uid)).
Proof.
  rewrite block_user_db.
  destruct (existsb (fun p => bool_decide (p = (cid, uid))) (db_blocked_users (db w))) eqn:E.
  - apply existsb_exists in E as (q & Hq & Eq). apply bool_decide_eq_true_1 in Eq. subst q.
    apply list_elem_of_In. exact Hq.
  - apply elem_of_app. right. apply list_elem_of_singleton. reflexivity.
Qed.

Lemma registry_keys_spec (m : gmap Z Z) (c : Z) :
  c ∈ map fst (map_to_list m) <-> is_Some (m !! c).
Proof.
  rewrite list_elem_of_In, in_map_iff. split.
  - intros ([c' o] & Hc & H). simpl in Hc. subst c'.
    apply list_elem_of_In, elem_of_map_to_list in H. eauto.
  - intros [o Ho]. exists (c, o). split; [reflexivity|].
    apply list_elem_of_In, elem_of_map_to_list. exact Ho.
Qed.

Lemma decimal_text_digits (n : Z) :
  0 <= n <= 99 ->
  let ds := if n <? 10 then [n] else [n / 10; n mod 10] in
  decimal_text n = String.string_of_list_ascii (map digit_char ds) /\
  Forall (fun d => 0 <= d <= 9) ds /\ ds <> [] /\ digits_value ds = n /\
  (1 <= length ds <= 2)%nat.
Proof.
  intros Hn. cbv zeta. split; [reflexivity|].
  destruct (Z.ltb_spec n 10).
  - split; [repeat constructor; lia|]. split; [discriminate|].
    split; [unfold digits_value; simpl; lia | simpl; lia].
  - split; [repeat constructor; Z.div_mod_to_equations; lia|]. split; [discriminate|].
    split; [unfold digits_value; simpl; Z.div_mod_to_equations; lia | simpl; lia].
Qed.

Lemma length_string_of_digits (ds : list Z) :
  String.length (String.string_of_list_ascii (map digit_char ds)) = length ds.
Proof.
  induction ds as [|d ds IH]; [reflexivity|].
  cbn [map String.string_of_list_ascii String.length length]. rewrite IH. reflexivity.
Qed.

(** ** Resolving the user text of the invite and block modals *)

(** A text of decimal digits, bare or as a mention [<@...>] or [<@!...>],
    resolves to the guild member with that id, and to nothing when there
    is none: such a text never falls back to the name search, even when a
    member's name contains it. *)
Theorem resolve_user_id_forms (ms : list GuildMember) (ds : list Z) :
  Forall (fun d => 0 <= d <= 9) ds -> ds <> [] ->
  resolve_user ms (String.string_of_list_ascii (map digit_char ds)) =
    get_member ms (digits_value ds) /\
  resolve_user ms (String.string_of_list_ascii ("<"%char :: "@"%char :: map digit_char ds ++ [">"%char])) =
    get_member ms (digits_value ds) /\
  resolve_user ms (String.string_of_list_ascii ("<"%char :: "@"%char :: "!"%char :: map digit_char ds ++ [">"%char])) =
    get_member ms (digits_value ds).
Proof.
  intros Hf Hne. split; [apply resolve_user_digits; assumption|].
  apply resolve_user_mention; assumption.
Qed.

(** The text "12" with one member, id 5, named "12": not found. *)
Lemma resolve_user_id_forms_witness :
  resolve_user [{| gm_id := 5; gm_name := "12"; gm_nick := None |}] "12" = None.
Proof.
  destruct (resolve_user_id_forms [{| gm_id := 5; gm_name := "12"; gm_nick := None |}] [1; 2]
              ltac:(repeat constructor; lia) ltac:(discriminate)) as [H _].
  exact H.
Defined.

(** An empty mention, [<@>] or [<@!>], leaves an empty text that is no
    number; the empty text is contained in every name, so it resolves to
    the first guild member. *)
Theorem resolve_user_empty_mention (m : GuildMember) (ms : list GuildMember) :
  resolve_user (m :: ms) "<@>" = Some m /\ resolve_user (m :: ms) "<@!>" = Some m.
Proof. split; apply resolve_user_stripped_empty; reflexivity. Qed.

(** ** [BlockUserModal.on_submit] *)

(** For a text giving a decimal id: no guild member with it is "could not
    find the user" with nothing changed; the actor's own id is "you cannot
    block yourself" with nothing changed; any other member is blocked on
    the channel (its row is stored) and no reply is sent. *)
Theorem block_on_submit_by_id (w : World) (ms : list GuildMember) (cid actor : Z) (ds : list Z) :
  Forall (fun d => 0 <= d <= 9) ds -> ds <> [] ->
  (get_member ms (digits_value ds) = None ->
   block_on_submit w ms cid actor (String.string_of_list_ascii (map digit_char ds)) =
     (w, BlockUserNotFound)) /\
  (is_Some (get_member ms (digits_value ds)) -> digits_value ds = actor ->
   block_on_submit w ms cid actor (String.string_of_list_ascii (map digit_char ds)) =
     (w, BlockCannotBlockSelf)) /\
  (is_Some (get_member ms (digits_value ds)) -> digits_value ds <> actor ->
   snd (block_on_submit w ms cid actor (String.string_of_list_ascii (map digit_char ds))) =
     BlockNoResponse /\
   (cid, digits_value ds) ∈
     db_blocked_users (db (fst (block_on_submit w ms cid actor
                                  (String.string_of_list_ascii (map digit_char ds)))))).
Proof.
  intros Hf Hne. unfold block_on_submit. rewrite resolve_user_digits by assumption.
  split; [intros -> ; reflexivity|].
  split.
  - intros [m Hm] Ha. rewrite Hm. rewrite (get_member_id _ _ _ Hm), (proj2 (Z.eqb_eq _ _) Ha).
    reflexivity.
  - intros [m Hm] Ha. rewrite Hm. rewrite (get_member_id _ _ _ Hm), (proj2 (Z.eqb_neq _ _) Ha).
    split; [reflexivity | apply block_user_row].
Qed.

(** Member 2 (text "2") is blocked on channel 10 of [w_sample] by owner 1. *)
Lemma block_on_submit_by_id_witness :
  (10, 2) ∈ db_blocked_users (db (fst (block_on_submit w_sample
             [{| gm_id := 2; gm_name := "two"; gm_nick := None |}] 10 1 "2"))).
Proof.
  destruct (block_on_submit_by_id w_sample [{| gm_id := 2; gm_name := "two"; gm_nick := None |}]
              10 1 [2] ltac:(repeat constructor; lia) ltac:(discriminate)) as (_ & _ & H).
  exact (proj2 (H ltac:(eexists; reflexivity) ltac:(vm_compute; discriminate))).
Defined.

(** ** Kick *)

(** The kick select disconnects only the selected member, and only when
    the channel is live, the member is in the guild and is in that
    channel; it changes no overwrite, row, registry entry, cooldown or
    member.  "Not in your channel" is sent exactly when the channel is
    live, the member is in the guild and is not in that channel; a
    successful kick is not answered. *)
Theorem kick_select_effect (w : World) (cid sel : Z) :
  channels (fst (kick_select w cid sel)) = channels w /\
  db (fst (kick_select w cid sel)) = db w /\
  voice_channels (fst (kick_select w cid sel)) = voice_channels w /\
  cooldowns (fst (kick_select w cid sel)) = cooldowns w /\
  members (fst (kick_select w cid sel)) = members w /\
  (forall u, voice (fst (kick_select w cid sel)) !! u =
     if bool_decide (u = sel /\ is_Some (channels w !! cid) /\ sel ∈ members w /\
                     voice w !! sel = Some cid)
     then None else voice w !! u) /\
  (snd (kick_select w cid sel) = KickNotInYourChannel <->
   is_Some (channels w !! cid) /\ sel ∈ members w /\ voice w !! sel <> Some cid).
Proof.
  unfold kick_select. destruct (channels w !! cid) as [ch|] eqn:Hc.
  - case_bool_decide as Hm; [|case_bool_decide as Hv]; simpl.
    + do 5 (split; [reflexivity|]). split.
      * intros u. rewrite bool_decide_eq_false_2 by tauto. reflexivity.
      * split; [discriminate | intros (_ & Hm' & _); contradiction].
    + do 5 (split; [reflexivity|]). split.
      * intros u. destruct (decide (u = sel)) as [->|Hu].
        -- rewrite lookup_delete_eq, bool_decide_eq_true_2; [reflexivity|].
           split; [reflexivity|]. split; [eauto|]. split; [|exact Hv].
           destruct (decide (sel ∈ members w)); [assumption | contradiction].
        -- rewrite lookup_delete_ne by congruence.
           rewrite bool_decide_eq_false_2 by tauto. reflexivity.
      * split; [discriminate | intros (_ & _ & Hv'); contradiction].
    + do 5 (split; [reflexivity|]). split.
      * intros u. rewrite bool_decide_eq_false_2 by tauto. reflexivity.
      * split; [intros _|reflexivity]. split; [eauto|]. split; [|exact Hv].
        destruct (decide (sel ∈ members w)); [assumption | contradiction].
  - simpl. do 5 (split; [reflexivity|]). split.
    + intros u. rewrite bool_decide_eq_false_2; [reflexivity|].
      intros (_ & [x Hx] & _). discriminate.
    + split; [discriminate | intros ([x Hx] & _); discriminate].
Qed.

(** ** Startup *)

(** Whichever of the two [on_ready] handlers runs first, the bot ends in
    the same state: the reconciled world, and one persistent view per
    registry entry of it, each once.  A later [on_ready] of either kind
    changes nothing. *)
Theorem startup_ready_either_order (w : World) :
  setup_on_ready (cog_on_ready {| bs_world := w; bs_views_added := false; bs_views := [] |}) =
  cog_on_ready (setup_on_ready {| bs_world := w; bs_views_added := false; bs_views := [] |}) /\
  bs_world (setup_on_ready (cog_on_ready {| bs_world := w; bs_views_added := false; bs_views := [] |}))
    = load_voice_channels w /\
  (forall c, c ∈ bs_views (setup_on_ready (cog_on_ready
                             {| bs_world := w; bs_views_added := false; bs_views := [] |})) <->
             is_Some (voice_channels (load_voice_channels w) !! c)) /\
  NoDup (bs_views (setup_on_ready (cog_on_ready
                     {| bs_world := w; bs_views_added := false; bs_views := [] |}))) /\
  setup_on_ready (setup_on_ready (cog_on_ready
    {| bs_world := w; bs_views_added := false; bs_views := [] |})) =
    setup_on_ready (cog_on_ready {| bs_world := w; bs_views_added := false; bs_views := [] |}) /\
  cog_on_ready (setup_on_ready (cog_on_ready
    {| bs_world := w; bs_views_added := false; bs_views := [] |})) =
    setup_on_ready (cog_on_ready {| bs_world := w; bs_views_added := false; bs_views := [] |}).
Proof.
  unfold setup_on_ready, cog_on_ready; simpl. rewrite !load_voice_channels_twice.
  split; [reflexivity|]. split; [reflexivity|]. split; [apply registry_keys_spec|].
  split; [rewrite map_fst_fmap; apply NoDup_fst_map_to_list|].
  split; reflexivity.
Qed.

(** ** [LimitMembersModal.on_submit] *)

(** Every n from 0 to 99, typed as its decimal text, is accepted by the
    text input and sets the live channel's user limit to n, answered as
    "limit removed" for 0 and "limit set to n" otherwise. *)
Theorem limit_decimal_roundtrip (w : World) (cid n : Z) (ch : Channel) :
  channels w !! cid = Some ch -> 0 <= n <= 99 ->
  limit_input_ok (decimal_text n) /\
  limit_on_submit w cid (decimal_text n) =
    (update_channel cid (set_user_limit n) w, if n =? 0 then LimitRemoved else LimitSet n).
Proof.
  intros Hc Hn. destruct (decimal_text_digits n Hn) as (Ht & Hf & Hne & Hv & Hl).
  rewrite Ht. split.
  - unfold limit_input_ok. rewrite length_string_of_digits. exact Hl.
  - unfold limit_on_submit. rewrite python_int_digits, Hv by assumption.
    rewrite (proj2 (Z.ltb_ge n 0)), (proj2 (Z.ltb_ge 99 n)) by lia. simpl.
    rewrite Hc. destruct (Z.eqb_spec n 0) as [->|Hn0]; [reflexivity|].
    rewrite (proj2 (Z.eqb_neq n 0) Hn0). reflexivity.
Qed.

(** The text "42" on channel 10 of [w_sample] sets its limit to 42. *)
Lemma limit_decimal_roundtrip_witness :
  limit_on_submit w_sample 10 "42" = (update_channel 10 (set_user_limit 42) w_sample, LimitSet 42).
Proof.
  exact (proj2 (limit_decimal_roundtrip w_sample 10 42 (new_channel 1) eq_refl ltac:(lia))).
Defined.

(** Whatever is submitted, the modal either changes nothing or sets the
    user limit of the live channel to a value from 0 to 99 and nothing
    else. *)
Theorem limit_on_submit_bounds (w : World) (cid : Z) (s : string) :
  fst (limit_on_submit w cid s) = w \/
  exists n, 0 <= n <= 99 /\ is_Some (channels w !! cid) /\
    limit_on_submit w cid s =
      (update_channel cid (set_user_limit n) w, if n =? 0 then LimitRemoved else LimitSet n).
Proof.
  unfold limit_on_submit. destruct (python_int s) as [v|]; [|left; reflexivity].
  destruct ((v <? 0) || (99 <? v)) eqn:Hb; [left; reflexivity|].
  apply orb_false_iff in Hb as [H1 H2]. apply Z.ltb_ge in H1, H2.
  destruct (channels w !! cid) as [ch|] eqn:Hc; [|left; reflexivity].
  right. exists v. split; [lia|]. split; [eauto|].
  destruct (Z.eqb_spec v 0) as [->|Hv0]; [reflexivity|].
  rewrite (proj2 (Z.eqb_neq v 0) Hv0). reflexivity.
Qed.
